(** * Student face attendance system: the script [app.py], embedded and verified

    [app.py] is a Streamlit script.  Streamlit re-executes it from the top on
    every user interaction, so the script is a sequence of blocks that read
    widget values and act on four stores: the face gallery (two parallel
    Python lists backed by [known_faces.pkl]), the class registry (a dict in
    [st.session_state] backed by [class_folders.pkl]), the Drive folder tree
    and the attendance spreadsheet.

    Each block is embedded as a computation in a state-and-exception monad
    over a record [World] holding those stores.  Library calls whose code is
    not part of the script (face detection, the distance metric, the ids the
    Drive service hands out) are fields of the class [Externals].

    Modelling conventions.
    - A Python [str] is a [string] of bytes (its UTF-8 encoding).  Where
      the script counts or classifies characters ([len], [str.isdigit],
      [str.strip]) the bytes are decoded to code points and classified with
      Python's tables.
    - A float64 distance is the rational number it denotes ([Q]); the
      comparison operators [<] and [==] on finite floats are the exact ones
      on rationals, and [threshold_literal_exact] shows that comparing a
      float with the literal [0.45] is comparing it with 45/100.  NaN is
      not represented.
    - A metadata [dict] is a [gmap string string]; subscripting a missing
      key raises [KeyError], as in Python. *)

From Stdlib Require Import QArith Qabs Ascii.
From stdpp Require Import base option list strings gmap.

(** ** Python built-ins used by the script *)

Module Py.

(** [not s] for a string. *)
Definition not_ (s : string) : bool :=
  match s with
  | EmptyString => true
  | String _ _ => false
  end.

(** [c in s] for a one-character needle. *)
Fixpoint contains (c : ascii) (s : string) : bool :=
  match s with
  | EmptyString => false
  | String a s' => if Ascii.eqb a c then true else contains c s'
  end.

(** The code points of a string held as UTF-8 bytes.  Python's [len],
    [str.isdigit] and [str.strip] work on code points, not on bytes.  Bytes
    that the encoding of a Python [str] never has (a lead byte whose
    sequence is cut short, a continuation byte on its own) are yielded as
    they are. *)
Fixpoint code_points (s : string) : list N :=
  match s with
  | EmptyString => []
  | String a s1 =>
      let b0 := N_of_ascii a in
      if (b0 <? 192)%N then b0 :: code_points s1
      else
        match s1 with
        | EmptyString => [b0]
        | String b s2 =>
            let b1 := (N_of_ascii b - 128)%N in
            if (b0 <? 224)%N then ((b0 - 192) * 64 + b1)%N :: code_points s2
            else
              match s2 with
              | EmptyString => [b0; N_of_ascii b]
              | String c s3 =>
                  let b2 := (N_of_ascii c - 128)%N in
                  if (b0 <? 240)%N then
                    (((b0 - 224) * 64 + b1) * 64 + b2)%N :: code_points s3
                  else
                    match s3 with
                    | EmptyString => [b0; N_of_ascii b; N_of_ascii c]
                    | String d s4 =>
                        let b3 := (N_of_ascii d - 128)%N in
                        ((((b0 - 240) * 64 + b1) * 64 + b2) * 64 + b3)%N
                          :: code_points s4
                    end
              end
        end
  end.

(** [len(s)] *)
Definition len (s : string) : nat := length (code_points s).

Definition in_ranges (c : N) (ranges : list (N * N)) : bool :=
  existsb (λ r, (r.1 <=? c)%N && (c <=? r.2)%N) ranges.

(** The code points with Numeric_Type Decimal or Digit, for which
    [str.isdigit] holds (Unicode 14.0, as in CPython 3.11): the decimal
    digits of every script, superscripts, subscripts, circled and dingbat
    digits. *)
Definition DIGIT_RANGES : list (N * N) := [
  (48, 57); (178, 179); (185, 185); (1632, 1641); (1776, 1785); (1984, 1993);
  (2406, 2415); (2534, 2543); (2662, 2671); (2790, 2799); (2918, 2927);
  (3046, 3055); (3174, 3183); (3302, 3311); (3430, 3439); (3558, 3567);
  (3664, 3673); (3792, 3801); (3872, 3881); (4160, 4169); (4240, 4249);
  (4969, 4977); (6112, 6121); (6160, 6169); (6470, 6479); (6608, 6618);
  (6784, 6793); (6800, 6809); (6992, 7001); (7088, 7097); (7232, 7241);
  (7248, 7257); (8304, 8304); (8308, 8313); (8320, 8329); (9312, 9320);
  (9332, 9340); (9352, 9360); (9450, 9450); (9461, 9469); (9471, 9471);
  (10102, 10110); (10112, 10120); (10122, 10130); (42528, 42537);
  (43216, 43225); (43264, 43273); (43472, 43481); (43504, 43513);
  (43600, 43609); (44016, 44025); (65296, 65305); (66720, 66729);
  (68160, 68163); (68912, 68921); (69216, 69224); (69714, 69722);
  (69734, 69743); (69872, 69881); (69942, 69951); (70096, 70105);
  (70384, 70393); (70736, 70745); (70864, 70873); (71248, 71257);
  (71360, 71369); (71472, 71481); (71904, 71913); (72016, 72025);
  (72784, 72793); (73040, 73049); (73120, 73129); (92768, 92777);
  (92864, 92873); (93008, 93017); (120782, 120831); (123200, 123209);
  (123632, 123641); (125264, 125273); (127232, 127242); (130032, 130041)
]%N.

(** The code points for which [str.isspace] holds, which [str.strip]
    removes (Unicode 14.0): tab to carriage return, the separators
    0x1c..0x1f, space, next line, no-break space, and the space, line and
    paragraph separators beyond Latin-1. *)
Definition SPACE_RANGES : list (N * N) := [
  (9, 13); (28, 32); (133, 133); (160, 160); (5760, 5760); (8192, 8202);
  (8232, 8233); (8239, 8239); (8287, 8287); (12288, 12288)
]%N.

Definition isdigit_cp (c : N) : bool := in_ranges c DIGIT_RANGES.

Definition isspace_cp (c : N) : bool := in_ranges c SPACE_RANGES.

(** [s.isdigit()]: every character is a digit and there is at least one. *)
Definition isdigit (s : string) : bool :=
  negb (not_ s) && forallb isdigit_cp (code_points s).

Fixpoint lstrip (l : list N) : list N :=
  match l with
  | [] => []
  | c :: l' => if isspace_cp c then lstrip l' else l
  end.

Fixpoint rstrip (l : list N) : list N :=
  match l with
  | [] => []
  | c :: l' =>
      match rstrip l' with
      | [] => if isspace_cp c then [] else [c]
      | r => c :: r
      end
  end.

(** The code points of [s.strip()]. *)
Definition strip (s : string) : list N := rstrip (lstrip (code_points s)).

(** [s.replace(a, b)] for one-character [a] and [b]. *)
Fixpoint replace (a b : ascii) (s : string) : string :=
  match s with
  | EmptyString => EmptyString
  | String c s' => String (if Ascii.eqb c a then b else c) (replace a b s')
  end.

(** [s.startswith(p)] *)
Definition startswith (s p : string) : bool := String.prefix p s.

(** [str(x)] inside an f-string, for a value that is a string or [None]. *)
Definition str_opt (x : option string) : string :=
  match x with
  | Some s => s
  | None => "None"
  end.

(** [a < b] on floats. *)
Definition lt (a b : Q) : bool := negb (Qle_bool b a).

(** The loop of the built-in [min]: the running minimum is replaced only by
    a strictly smaller item. *)
Fixpoint min_from (cur : Q) (l : list Q) : Q :=
  match l with
  | [] => cur
  | x :: l' => min_from (if lt x cur then x else cur) l'
  end.

(** [min(l)]; [None] stands for the [ValueError] on an empty sequence. *)
Definition min (l : list Q) : option Q :=
  match l with
  | [] => None
  | x :: l' => Some (min_from x l')
  end.

(** [l.index(x)]: the first position whose item compares [==] to [x];
    [None] stands for the [ValueError] when there is none. *)
Fixpoint index_from (i : nat) (l : list Q) (x : Q) : option nat :=
  match l with
  | [] => None
  | y :: l' => if Qeq_bool y x then Some i else index_from (S i) l' x
  end.

Definition index (l : list Q) (x : Q) : option nat := index_from 0 l x.

End Py.

(** ** Data *)

(** A face descriptor, as returned by [face_recognition.face_encodings]. *)
Definition embedding : Type := list Q.

(** The bytes of a captured picture ([camera_input(...).getvalue()]). *)
Definition image : Type := string.

(** An object created by [drive_service.files().create]: the request body
    (name, optional MIME type, parent folder ids), the optional media body,
    and the id the service assigned. *)
Record drive_file : Type := {
  df_name : string;
  df_mimeType : option string;
  df_parents : list string;
  df_media : option image;
  df_id : string
}.

(** A [pandas.DataFrame] of strings: column labels and rows. *)
Record DataFrame : Type := {
  columns : list string;
  rows : list (list string)
}.

(** What the page shows. *)
Inductive ui : Type :=
| st_error (body : string)
| st_success (body : string)
| st_warning (body : string)
| st_info (body : string)
| st_download_button (label : string) (data : DataFrame) (file_name : string).

(** Observable effects, in the order the script performs them. *)
Inductive event : Type :=
| EvUI (u : ui)
| EvFaceDistance (gallery_size : nat)
| EvDriveCreate (f : drive_file)
| EvPickleDump (path : string)
| EvAddWorksheet (title : string)
| EvAppendRow (title : string) (row : list string).

Inductive exn : Type :=
| KeyError (key : option string)
| IndexError
| ValueError
| AttributeError.

Inductive result (A : Type) : Type :=
| Ok (a : A)
| Raise (e : exn).

Arguments Ok {A} a.
Arguments Raise {A} e.

(** Library code the script calls but does not contain. *)
Class Externals : Type := {
  (** [face_recognition.face_encodings(load_image_file(bytes))]: one
      descriptor per detected face. *)
  face_encodings : image → list embedding;
  (** The metric behind [face_recognition.face_distance], for one gallery
      descriptor and the query. *)
  distance : embedding → embedding → Q;
  (** The id the Drive service assigns to the next created object. *)
  drive_new_id : list drive_file → string
}.

(** The stores the script reads and writes. *)
Record World : Type := {
  (** module globals, rebuilt by every run *)
  known_faces : list embedding;
  known_metadata : list (gmap string string);
  (** the file [known_faces.pkl]; [None] when it does not exist *)
  known_faces_pkl : option (list embedding * list (gmap string string));
  (** [st.session_state.class_folders]; [None] when the key is not set *)
  class_folders : option (gmap string string);
  (** the file [class_folders.pkl] *)
  class_folders_pkl : option (gmap string string);
  (** objects created on Drive, oldest first *)
  drive : list drive_file;
  (** the spreadsheet: worksheet title to rows, top row first *)
  sheets : gmap string (list (list string));
  (** the trace of effects *)
  log : list event
}.

Definition set_gallery (fs : list embedding) (ms : list (gmap string string))
    (w : World) : World :=
  {| known_faces := fs; known_metadata := ms;
     known_faces_pkl := known_faces_pkl w; class_folders := class_folders w;
     class_folders_pkl := class_folders_pkl w; drive := drive w;
     sheets := sheets w; log := log w |}.

Definition set_known_faces_pkl
    (f : option (list embedding * list (gmap string string))) (w : World) : World :=
  {| known_faces := known_faces w; known_metadata := known_metadata w;
     known_faces_pkl := f; class_folders := class_folders w;
     class_folders_pkl := class_folders_pkl w; drive := drive w;
     sheets := sheets w; log := log w |}.

Definition set_class_folders (c : option (gmap string string)) (w : World) : World :=
  {| known_faces := known_faces w; known_metadata := known_metadata w;
     known_faces_pkl := known_faces_pkl w; class_folders := c;
     class_folders_pkl := class_folders_pkl w; drive := drive w;
     sheets := sheets w; log := log w |}.

Definition set_class_folders_pkl (c : option (gmap string string)) (w : World) : World :=
  {| known_faces := known_faces w; known_metadata := known_metadata w;
     known_faces_pkl := known_faces_pkl w; class_folders := class_folders w;
     class_folders_pkl := c; drive := drive w;
     sheets := sheets w; log := log w |}.

Definition set_drive (d : list drive_file) (w : World) : World :=
  {| known_faces := known_faces w; known_metadata := known_metadata w;
     known_faces_pkl := known_faces_pkl w; class_folders := class_folders w;
     class_folders_pkl := class_folders_pkl w; drive := d;
     sheets := sheets w; log := log w |}.

Definition set_sheets (s : gmap string (list (list string))) (w : World) : World :=
  {| known_faces := known_faces w; known_metadata := known_metadata w;
     known_faces_pkl := known_faces_pkl w; class_folders := class_folders w;
     class_folders_pkl := class_folders_pkl w; drive := drive w;
     sheets := s; log := log w |}.

Definition set_log (l : list event) (w : World) : World :=
  {| known_faces := known_faces w; known_metadata := known_metadata w;
     known_faces_pkl := known_faces_pkl w; class_folders := class_folders w;
     class_folders_pkl := class_folders_pkl w; drive := drive w;
     sheets := sheets w; log := l |}.

(** ** The monad: state that survives an exception *)

Definition M (A : Type) : Type := World → World * result A.

#[export] Instance M_ret : MRet M := λ A a w, (w, Ok a).

#[export] Instance M_bind : MBind M := λ A B f m w,
  match m w with
  | (w', Ok a) => f a w'
  | (w', Raise e) => (w', Raise e)
  end.

Definition get : M World := λ w, (w, Ok w).

Definition modify (f : World → World) : M unit := λ w, (f w, Ok tt).

Definition raise {A : Type} (e : exn) : M A := λ w, (w, Raise e).

Definition emit (ev : event) : M unit := modify (λ w, set_log (log w ++ [ev]) w).

Definition st (u : ui) : M unit := emit (EvUI u).

(** An optional value, or the given exception. *)
Definition or_raise {A : Type} (e : exn) (o : option A) : M A :=
  match o with
  | Some a => mret a
  | None => raise e
  end.

(** ** The script *)

Section Script.

Context `{Externals}.

(** *** Setup (lines 18-34) *)

Definition CLASS_FOLDERS_FILE : string := "class_folders.pkl".

Definition DEFAULT_CLASS_LIST : list string := [
  "BVI3114 TECHNOLOGY SYSTEM OPTIMIZATION II";
  "BVI3124 APPLICATION SYSTEM DEVELOPMENT II";
  "UHF1111 MANDARIN FOR BEGINNERS";
  "BVI2254 CAPSTONE TECHNOPRENEUR I";
  "BVI3215 SYSTEM INTEGRATION DESIGNING";
  "ULE1362 ENGLISH FOR VOCATIONAL PURPOSES"
].

Definition PARENT_FOLDER_ID : string := "1_nqo09S2_8pxS9mVvdwwXO1IfVGD1vn7".

(** [drive_service.files().create(body=..., media_body=..., fields='id')
    .execute()['id']] *)
Definition drive_create (name : string) (mimeType : option string)
    (parents : list string) (media : option image) : M string :=
  w ← get;
  let f := {| df_name := name; df_mimeType := mimeType; df_parents := parents;
              df_media := media; df_id := drive_new_id (drive w) |} in
  modify (set_drive (drive w ++ [f])) ;;
  emit (EvDriveCreate f) ;;
  mret (df_id f).

(** The folder-creation call of lines 56-63 and 180-187. *)
Definition create_folder (name : string) : M string :=
  drive_create name (Some "application/vnd.google-apps.folder")
    [PARENT_FOLDER_ID] None.

(** *** Load known faces (lines 37-44) *)

Definition load_known_faces : M unit :=
  w ← get;
  match known_faces_pkl w with
  | Some known_data => modify (set_gallery known_data.1 known_data.2)
  | None => modify (set_gallery [] [])
  end.

(** *** Load class folders into session_state (lines 47-67) *)

(** [st.session_state.class_folders] *)
Definition session_class_folders : M (gmap string string) :=
  w ← get; or_raise AttributeError (class_folders w).

(** [st.session_state.class_folders[k] = v] *)
Definition class_folders_setitem (k v : string) : M unit :=
  cf ← session_class_folders;
  modify (set_class_folders (Some (<[k := v]> cf))).

(** [pickle.dump(st.session_state.class_folders, f)] on
    [CLASS_FOLDERS_FILE] *)
Definition dump_class_folders : M unit :=
  cf ← session_class_folders;
  modify (set_class_folders_pkl (Some cf)) ;;
  emit (EvPickleDump CLASS_FOLDERS_FILE).

(** The [for cls in DEFAULT_CLASS_LIST] loop (lines 54-64). *)
Fixpoint bootstrap_defaults (l : list string) : M unit :=
  match l with
  | [] => mret tt
  | cls :: l' =>
      cf ← session_class_folders;
      (if bool_decide (is_Some (cf !! cls)) then mret tt
       else
         folder_id ← create_folder cls;
         class_folders_setitem cls folder_id) ;;
      bootstrap_defaults l'
  end.

Definition load_class_folders : M unit :=
  w ← get;
  match class_folders w with
  | Some _ => mret tt
  | None =>
      modify (set_class_folders (Some
        match class_folders_pkl w with
        | Some saved => saved
        | None => ∅
        end)) ;;
      bootstrap_defaults DEFAULT_CLASS_LIST ;;
      dump_class_folders
  end.

(** *** Cached Google Sheets reader (lines 70-77)

    [worksheet.get_all_records()] takes the top row as the keys and every
    later row as a record; a sheet with fewer than two rows has no records,
    and [pd.DataFrame] of no records has no columns.  The 30-second cache
    only replays an earlier return value of this function and is left
    out. *)

Definition empty_DataFrame : DataFrame := {| columns := []; rows := [] |}.

Definition get_all_records (sheet : list (list string)) : DataFrame :=
  match sheet with
  | header :: (r :: rs) => {| columns := header; rows := r :: rs |}
  | _ => empty_DataFrame
  end.

Definition get_class_data (class_name : option string) : M DataFrame :=
  w ← get;
  match class_name ≫= (sheets w !!.) with
  | Some worksheet => mret (get_all_records worksheet)
  | None => mret empty_DataFrame
  end.

(** [df.empty] *)
Definition df_empty (df : DataFrame) : bool :=
  match columns df, rows df with
  | _ :: _, _ :: _ => false
  | _, _ => true
  end.

(** *** Tab 1: registration (lines 94-113) *)

Record register_form : Type := {
  reg_name : string;
  reg_id : string;
  reg_email : string;
  reg_phone : string;
  reg_img : option image;
  reg_submit : bool
}.

(** The metadata dict literal of line 110. *)
Definition new_metadata (f : register_form) : gmap string string :=
  <["name" := reg_name f]> (<["student_id" := reg_id f]>
    (<["email" := reg_email f]> (<["phone" := reg_phone f]> ∅))).

(** Lines 106-113, on the result of [face_encodings]. *)
Definition tab1_encodings (f : register_form) (encodings : list embedding) : M unit :=
  match encodings with
  | [] => st (st_error "❌ No face detected.")
  | encodings_0 :: _ =>
      modify (λ w, set_gallery (known_faces w ++ [encodings_0]) (known_metadata w) w) ;;
      modify (λ w, set_gallery (known_faces w) (known_metadata w ++ [new_metadata f]) w) ;;
      modify (λ w, set_known_faces_pkl (Some (known_faces w, known_metadata w)) w) ;;
      emit (EvPickleDump "known_faces.pkl") ;;
      st (st_success ("✅ " +:+ reg_name f +:+ " registered successfully!"))
  end.

Definition tab1 (f : register_form) : M unit :=
  if reg_submit f then
    if Py.not_ (reg_name f) || Py.not_ (reg_id f) || Py.not_ (reg_email f)
       || Py.not_ (reg_phone f) then
      st (st_error "❗ Please fill in all fields.")
    else
      match reg_img f with
      | None => st (st_error "❗ Please capture a face image.")
      | Some img =>
          if negb (Py.contains "@" (reg_email f))
             || negb (Py.contains "." (reg_email f)) then
            st (st_error "❗ Invalid email.")
          else if negb (Py.isdigit (reg_phone f))
                  || (Py.len (reg_phone f) <? 10)%nat
                  || (15 <? Py.len (reg_phone f))%nat then
            st (st_error "❗ Invalid phone number.")
          else tab1_encodings f (face_encodings img)
      end
  else mret tt.

(** *** Tab 2: attendance (lines 121-163) *)

Definition HEADER_ROW : list string :=
  ["Timestamp"; "Name"; "Student ID"; "Email"; "Phone"; "Class"; "Status"; "Image URL"].

(** [face_recognition.face_distance(known_faces, face_encoding)] *)
Definition face_distance (faces : list embedding) (face_to_compare : embedding)
    : M (list Q) :=
  emit (EvFaceDistance (length faces)) ;;
  mret (map (λ face, distance face face_to_compare) faces).

(** [sheet.append_row(row)] on the worksheet titled [title]. *)
Definition append_row (title : string) (row : list string) : M unit :=
  modify (λ w, set_sheets (alter (λ rs, rs ++ [row]) title (sheets w)) w) ;;
  emit (EvAppendRow title row).

(** [add_worksheet(title=title, rows="100", cols="20")] *)
Definition add_worksheet (title : string) : M unit :=
  modify (λ w, set_sheets (<[title := []]> (sheets w)) w) ;;
  emit (EvAddWorksheet title).

(** Lines 130-134 and the [else] of line 162: the matched metadata when the
    nearest gallery entry is closer than the threshold, [None] otherwise. *)
Definition matcher (face_encoding : embedding) : M (option (gmap string string)) :=
  w ← get;
  distances ← face_distance (known_faces w) face_encoding;
  min_distance ← or_raise ValueError (Py.min distances);
  best_match_index ← or_raise ValueError (Py.index distances min_distance);
  if Py.lt min_distance 0.45 then
    matched ← or_raise IndexError (known_metadata w !! best_match_index);
    mret (Some matched)
  else mret None.

(** Lines 135-161: upload the picture and append the ledger row. *)
Definition submit (matched : gmap string string) (selected_class : option string)
    (face_img : image) (timestamp : string) : M unit :=
  name ← or_raise (KeyError (Some "name")) (matched !! "name");
  student_id ← or_raise (KeyError (Some "student_id")) (matched !! "student_id");
  let filename := name +:+ "_" +:+ student_id +:+ "_" +:+ Py.str_opt selected_class
                  +:+ "_" +:+ Py.replace ":" "-" timestamp +:+ ".jpg" in
  cf ← session_class_folders;
  folder ← or_raise (KeyError selected_class) (selected_class ≫= (cf !!.));
  uploaded_id ← drive_create filename None [folder] (Some face_img);
  let file_url := "https://drive.google.com/file/d/" +:+ uploaded_id +:+ "/view" in
  let title := Py.str_opt selected_class in
  w ← get;
  (if bool_decide (is_Some (sheets w !! title)) then mret tt
   else add_worksheet title ;; append_row title HEADER_ROW) ;;
  append_row title [
    timestamp;
    name;
    student_id;
    default "" (matched !! "email");
    default "" (matched !! "phone");
    title;
    "Present";
    file_url
  ] ;;
  st (st_success ("✅ Attendance submitted for " +:+ name +:+ " (" +:+ student_id +:+ ")")).

(** Lines 124-163, on the result of [face_encodings]. *)
Definition tab2_encodings (selected_class : option string) (face_img : image)
    (timestamp : string) (encodings : list embedding) : M unit :=
  match encodings with
  | [] => st (st_error "❌ No face detected.")
  | face_encoding :: _ =>
      w ← get;
      match known_faces w with
      | [] => st (st_error "⚠️ No registered faces found.")
      | _ :: _ =>
          m ← matcher face_encoding;
          match m with
          | Some matched => submit matched selected_class face_img timestamp
          | None => st (st_error "❌ Face not recognized.")
          end
      end
  end.

Definition tab2 (selected_class : option string) (face_img : option image)
    (timestamp : string) : M unit :=
  match face_img with
  | Some img => tab2_encodings selected_class img timestamp (face_encodings img)
  | None => mret tt
  end.

(** *** Admin panel: add class (lines 174-191) *)

Definition add_class (pressed : bool) (new_class : string) : M unit :=
  if pressed then
    if bool_decide (Py.strip new_class = []) then
      st (st_error "Class name cannot be empty.")
    else
      cf ← session_class_folders;
      if bool_decide (is_Some (cf !! new_class)) then
        st (st_warning "Class already exists.")
      else
        folder_id ← create_folder new_class;
        class_folders_setitem new_class folder_id ;;
        dump_class_folders ;;
        st (st_success ("Class '" +:+ new_class +:+ "' added."))
  else mret tt.

(** *** Admin panel: remove class (lines 194-202) *)

Definition remove_class (pressed : bool) (class_to_remove : option string) : M unit :=
  cf ← session_class_folders;
  if bool_decide (cf = ∅) then st (st_info "No classes available to remove.")
  else if pressed then
    k ← or_raise (KeyError class_to_remove)
          (class_to_remove ≫= (λ k, if bool_decide (is_Some (cf !! k)) then Some k else None));
    modify (set_class_folders (Some (delete k cf))) ;;
    dump_class_folders ;;
    st (st_success ("Class '" +:+ k +:+ "' removed."))
  else mret tt.

(** *** Admin panel: download CSV (lines 229-247)

    [filtered_df.to_csv] is not rendered: the download button carries the
    filtered frame. *)

(** [df['Timestamp'].str.startswith(date)] as a row filter; [None] stands for
    the [KeyError] when there is no such column. *)
Definition timestamp_startswith (df : DataFrame) (date : string)
    : option (list string → bool) :=
  match list_find (λ c, c = "Timestamp") (columns df) with
  | Some (i, _) => Some (λ row, Py.startswith (default "" (row !! i)) date)
  | None => None
  end.

Definition download_csv (pressed : bool) (download_class : option string)
    (download_date : string) : M unit :=
  if pressed then
    df ← get_class_data download_class;
    if df_empty df then st (st_warning "No attendance data for selected class.")
    else
      keep ← or_raise (KeyError (Some "Timestamp")) (timestamp_startswith df download_date);
      let filtered_df := {| columns := columns df; rows := filter (λ r, keep r = true) (rows df) |} in
      if df_empty filtered_df then st (st_warning "No data for selected date.")
      else
        st (st_download_button
              ("Download " +:+ Py.str_opt download_class +:+ " attendance for " +:+ download_date)
              filtered_df
              (Py.str_opt download_class +:+ "_attendance_" +:+ download_date +:+ ".csv"))
  else mret tt.

End Script.

(** ** One script block per user interaction *)

Inductive op : Type :=
| LoadKnownFaces
| LoadClassFolders
| Tab1 (f : register_form)
| Tab2 (selected_class : option string) (face_img : option image) (timestamp : string)
| AddClass (pressed : bool) (new_class : string)
| RemoveClass (pressed : bool) (class_to_remove : option string)
| DownloadCsv (pressed : bool) (download_class : option string) (download_date : string).

Definition exec `{Externals} (o : op) : M unit :=
  match o with
  | LoadKnownFaces => load_known_faces
  | LoadClassFolders => load_class_folders
  | Tab1 f => tab1 f
  | Tab2 selected_class face_img timestamp => tab2 selected_class face_img timestamp
  | AddClass pressed new_class => add_class pressed new_class
  | RemoveClass pressed class_to_remove => remove_class pressed class_to_remove
  | DownloadCsv pressed download_class download_date =>
      download_csv pressed download_class download_date
  end.

(** The world after a sequence of blocks.  An exception ends the block that
    raised it; what the block had already written stays. *)
Fixpoint exec_all `{Externals} (os : list op) (w : World) : World :=
  match os with
  | [] => w
  | o :: os' => exec_all os' (exec o w).1
  end.

(** ** Vocabulary of the statements *)

Definition chars (s : string) : list ascii := String.list_ascii_of_string s.

(** Every character of [s] is whitespace for Python; the empty string
    included. *)
Definition whitespace_only (s : string) : Prop :=
  Forall (λ c, Py.isspace_cp c = true) (Py.code_points s).

(** Every character of [s] is a digit for Python. *)
Definition all_digits (s : string) : Prop :=
  Forall (λ c, Py.isdigit_cp c = true) (Py.code_points s).

(** The events a block added to the trace. *)
Definition new_events (w w' : World) : list event := drop (length (log w)) (log w').

(** Nothing but the trace differs. *)
Definition same_stores (w w' : World) : Prop :=
  known_faces w' = known_faces w ∧ known_metadata w' = known_metadata w ∧
  known_faces_pkl w' = known_faces_pkl w ∧ class_folders w' = class_folders w ∧
  class_folders_pkl w' = class_folders_pkl w ∧ drive w' = drive w ∧
  sheets w' = sheets w.

(** The values of the finite binary64 floats: [m * 2^k] or [m / 2^k] with a
    significand below [2^53]. *)
Definition binary64_value (x : Q) : Prop :=
  ∃ m k : Z,
    (Z.abs m < 2 ^ 53)%Z ∧
    ((0 <= k <= 971)%Z ∧ (x == inject_Z (m * 2 ^ k))%Q
     ∨ (0 < k <= 1074)%Z ∧ (x == m # Z.to_pos (2 ^ k))%Q).

(** The float that the literal [0.45] of line 133 denotes,
    [8106479329266893 / 2^54]; it lies just above 45/100. *)
Definition float_0_45 : Q := 8106479329266893 # 18014398509481984.

(** [m] is a least element of [l]. *)
Definition is_minimum (m : Q) (l : list Q) : Prop :=
  m ∈ l ∧ ∀ x, x ∈ l → (m <= x)%Q.

(** Position [j] holds the first item of [l] equal to [x]. *)
Definition first_at (l : list Q) (x : Q) (j : nat) : Prop :=
  (∃ y, l !! j = Some y ∧ (y == x)%Q) ∧
  ∀ j' z, (j' < j)%nat → l !! j' = Some z → ¬ (z == x)%Q.

(** The distances of a query to the gallery, in insertion order. *)
Definition distances_to `{Externals} (w : World) (q : embedding) : list Q :=
  map (λ face, distance face q) (known_faces w).

(** The two gallery lists pair up, in memory and in the file. *)
Definition paired (w : World) : Prop :=
  length (known_faces w) = length (known_metadata w).

Definition file_paired (w : World) : Prop :=
  ∀ fs ms, known_faces_pkl w = Some (fs, ms) → length fs = length ms.

(** A registration that passes every check of lines 95-106. *)
Definition valid_registration `{Externals} (f : register_form) (img : image) : Prop :=
  reg_submit f = true ∧
  reg_name f ≠ "" ∧ reg_id f ≠ "" ∧ reg_email f ≠ "" ∧ reg_phone f ≠ "" ∧
  reg_img f = Some img ∧
  "@"%char ∈ chars (reg_email f) ∧ "."%char ∈ chars (reg_email f) ∧
  all_digits (reg_phone f) ∧
  (10 ≤ length (Py.code_points (reg_phone f)) ≤ 15)%nat ∧
  face_encodings img ≠ [].

(** A submitted form with a picture that passes the checks of lines 95-102,
    whatever the picture shows. *)
Definition passes_field_checks (f : register_form) (img : image) : Prop :=
  reg_submit f = true ∧
  reg_name f ≠ "" ∧ reg_id f ≠ "" ∧ reg_email f ≠ "" ∧ reg_phone f ≠ "" ∧
  reg_img f = Some img ∧
  "@"%char ∈ chars (reg_email f) ∧ "."%char ∈ chars (reg_email f) ∧
  all_digits (reg_phone f) ∧
  (10 ≤ length (Py.code_points (reg_phone f)) ≤ 15)%nat.

(** The form [f] with another picture. *)
Definition with_img (f : register_form) (img : image) : register_form :=
  {| reg_name := reg_name f; reg_id := reg_id f; reg_email := reg_email f;
     reg_phone := reg_phone f; reg_img := Some img; reg_submit := reg_submit f |}.

(** The rows of a frame whose [Timestamp] cell starts with the date. *)
Definition rows_on (date : string) (sheet : list (list string)) : list (list string) :=
  match sheet with
  | [] => []
  | header :: records =>
      match list_find (λ c, c = "Timestamp") header with
      | Some (i, _) =>
          filter (λ r, String.prefix date (default "" (r !! i)) = true) records
      | None => []
      end
  end.

(** What the download block shows for a class and a date. *)
Definition export_report (w : World) (cls : string) (date : string)
    : list event * result unit :=
  let r := download_csv true (Some cls) date w in (new_events w r.1, r.2).

(** The gallery part of the world, and blocks that leave it alone. *)
Definition gallery_of (w : World)
    : list embedding * list (gmap string string)
      * option (list embedding * list (gmap string string)) :=
  (known_faces w, known_metadata w, known_faces_pkl w).

Definition keeps_gallery {A : Type} (m : M A) : Prop :=
  ∀ w, gallery_of (m w).1 = gallery_of w.

(** The reading of the multiple-face rule under which a registration with a
    picture that does not show exactly one face changes no store. *)
Definition rejects_unless_one_face `{Externals} (f : register_form) (img : image)
    (w : World) : Prop :=
  reg_img f = Some img →
  length (face_encodings img) ≠ 1%nat →
  same_stores w (tab1 f w).1.

(** The reading of the export rule under which every existing worksheet
    without a row on the date is told apart from a missing worksheet. *)
Definition export_tells_apart (w w' : World) (cls date : string) : Prop :=
  ∀ sheet, sheets w !! cls = Some sheet →
  rows_on date sheet = [] →
  sheets w' !! cls = None →
  export_report w cls date ≠ export_report w' cls date.


(** ** A concrete instance of the library calls

    Used to evaluate the script on explicit inputs: a picture is a string
    with one character per face, the descriptor of a face is its character
    code in hundredths, and the distance is the absolute difference. *)

Definition demo_externals : Externals := {|
  face_encodings img :=
    map (λ c, [Z.of_nat (nat_of_ascii c) # 100]) (String.list_ascii_of_string img);
  distance a b := Qabs (hd 0%Q a - hd 0%Q b);
  drive_new_id d := String (ascii_of_nat (65 + length d)) EmptyString
|}.

Definition empty_world : World := {|
  known_faces := []; known_metadata := [];
  known_faces_pkl := None; class_folders := None; class_folders_pkl := None;
  drive := []; sheets := ∅; log := []
|}.

Definition demo_form (name : string) (img : image) : register_form := {|
  reg_name := name; reg_id := "CB21001"; reg_email := "aina@example.org";
  reg_phone := "0123456789"; reg_img := Some img; reg_submit := true
|}.

Definition demo_class : string := "UHF1111 MANDARIN FOR BEGINNERS".

(** A spreadsheet in which the worksheet of the class holds the header row
    and nothing else. *)
Definition header_only_world : World := {|
  known_faces := []; known_metadata := [];
  known_faces_pkl := None; class_folders := None; class_folders_pkl := None;
  drive := [];
  sheets := {[ demo_class := [HEADER_ROW] ]};
  log := []
|}.

(** A class name of four blanks: a tab, a space, a no-break space (U+00A0)
    and an ideographic space (U+3000), the last two in UTF-8. *)
Definition blank_name : string :=
  String (ascii_of_nat 9) (String (ascii_of_nat 32)
    (String (ascii_of_nat 194) (String (ascii_of_nat 160)
      (String (ascii_of_nat 227) (String (ascii_of_nat 128)
        (String (ascii_of_nat 128) EmptyString)))))).

(** A session that loaded the registry and registered three students; the
    first and the third have the same descriptor. *)
Definition demo_world : World :=
  @exec_all demo_externals
    [LoadKnownFaces; LoadClassFolders;
     Tab1 (demo_form "Aina" "4"); Tab1 (demo_form "Bala" "a"); Tab1 (demo_form "Chen" "4")]
    empty_world.


(** A spreadsheet in which the class has one record, of 1 January. *)
Definition one_record_world : World := {|
  known_faces := []; known_metadata := [];
  known_faces_pkl := None; class_folders := None; class_folders_pkl := None;
  drive := [];
  sheets := {[ demo_class :=
               [HEADER_ROW;
                ["2024-01-01 10:00:00"; "Aina"; "CB21001"; "aina@example.org";
                 "0123456789"; demo_class; "Present";
                 "https://drive.google.com/file/d/G/view"]] ]};
  log := []
|}.

(** ** The rest of the admin panel, and the script as a whole

    Static headings and input widgets leave no trace, as in the blocks
    above.  The two tables and the pie chart of lines 217-221 are drawn by
    pandas and plotly from [filtered_df] grouped by student; the dashboard
    block is embedded up to the frame that is grouped, which it returns, and
    the grouping itself is not represented. *)

(** [df.columns.get_loc(label)]; [None] stands for the [KeyError]. *)
Definition column_index (df : DataFrame) (label : string) : option nat :=
  fst <$> list_find (λ c, c = label) (columns df).

(** Lines 206-216; [groupby] raises [KeyError] for a label that is not a
    column. *)
Definition dashboard (selected : option string) (date : string)
    : M (option DataFrame) :=
  df ← get_class_data selected;
  if df_empty df then st (st_info "No data yet.") ;; mret None
  else
    keep ← or_raise (KeyError (Some "Timestamp")) (timestamp_startswith df date);
    let filtered_df := {| columns := columns df; rows := filter (λ r, keep r = true) (rows df) |} in
    if df_empty filtered_df then st (st_warning "No data for selected date.") ;; mret None
    else
      _ ← or_raise (KeyError (Some "Student ID")) (column_index filtered_df "Student ID");
      _ ← or_raise (KeyError (Some "Name")) (column_index filtered_df "Name");
      mret (Some filtered_df).

(** The widgets of the admin panel. *)
Record admin_inputs : Type := {
  admin_code : string;
  new_class : string;
  add_pressed : bool;
  class_to_remove : option string;
  remove_pressed : bool;
  selected : option string;
  date : string;
  download_class : option string;
  download_date : string;
  download_pressed : bool
}.

(** The widgets of one run of the script. *)
Record inputs : Type := {
  in_form : register_form;
  in_selected_class : option string;
  in_face_img : option image;
  in_timestamp : string;
  in_admin : admin_inputs
}.

Section Panel.

Context `{Externals}.

(** Lines 165-250. *)
Definition tab3 (a : admin_inputs) : M unit :=
  if String.eqb (admin_code a) "admin123" then
    st (st_success "Access granted ✅") ;;
    add_class (add_pressed a) (new_class a) ;;
    remove_class (remove_pressed a) (class_to_remove a) ;;
    dashboard (selected a) (date a) ;;
    download_csv (download_pressed a) (download_class a) (download_date a)
  else if negb (Py.not_ (admin_code a)) then st (st_warning "Enter valid admin code.")
  else mret tt.

(** One run of [app.py], top to bottom. *)
Definition script (i : inputs) : M unit :=
  load_known_faces ;;
  load_class_folders ;;
  tab1 (in_form i) ;;
  tab2 (in_selected_class i) (in_face_img i) (in_timestamp i) ;;
  tab3 (in_admin i).

End Panel.

(** ** Vocabulary of the further statements *)

(** A block leaves every world in relation [R] with the world it started
    from, whether it returns or raises. *)
Definition respects {A : Type} (R : World → World → Prop) (m : M A) : Prop :=
  ∀ w, R w (m w).1.

(** Relations that hold along any run: reflexive, transitive, and blind to
    the trace. *)
Class RunRelation (R : World → World → Prop) : Prop := {
  run_refl : ∀ w, R w w;
  run_trans : ∀ w1 w2 w3, R w1 w2 → R w2 w3 → R w1 w3;
  run_log : ∀ w l, R w (set_log l w)
}.

(** Nothing is ever taken off Drive. *)
Definition drive_grows (w w' : World) : Prop := drive w `prefix_of` drive w'.

(** No worksheet disappears and no row of one is changed or removed. *)
Definition ledger_grows (w w' : World) : Prop :=
  ∀ title rs, sheets w !! title = Some rs →
    ∃ rs', sheets w' !! title = Some rs' ∧ rs `prefix_of` rs'.

(** The registry, in the session and in its file. *)
Definition registry_of (w : World)
    : option (gmap string string) * option (gmap string string) :=
  (class_folders w, class_folders_pkl w).

Definition keeps_registry (w w' : World) : Prop := registry_of w' = registry_of w.

Definition keeps_gallery_rel (w w' : World) : Prop := gallery_of w' = gallery_of w.

(** The registry file holds what the session holds. *)
Definition registry_synced (w : World) : Prop :=
  ∀ cf, class_folders w = Some cf → class_folders_pkl w = Some cf.

(** The gallery file holds what the two lists hold; without a file they are
    empty. *)
Definition gallery_synced (w : World) : Prop :=
  match known_faces_pkl w with
  | Some saved => saved = (known_faces w, known_metadata w)
  | None => known_faces w = [] ∧ known_metadata w = []
  end.

(** [f] is the folder that the script creates for class [name]. *)
Definition is_class_folder (f : drive_file) (name id : string) : Prop :=
  df_name f = name ∧ df_id f = id ∧
  df_mimeType f = Some "application/vnd.google-apps.folder" ∧
  df_parents f = ["1_nqo09S2_8pxS9mVvdwwXO1IfVGD1vn7"] ∧ df_media f = None.

(** Every handle of the registry [cf] is the id of a class folder on Drive. *)
Definition registry_backed (cf : gmap string string) (d : list drive_file) : Prop :=
  ∀ name id, cf !! name = Some id → ∃ f, f ∈ d ∧ is_class_folder f name id.

Definition registry_backed_world (w : World) : Prop :=
  (∀ cf, class_folders w = Some cf → registry_backed cf (drive w)) ∧
  (∀ cf, class_folders_pkl w = Some cf → registry_backed cf (drive w)).

(** The widgets of a run in which nobody does anything. *)
Definition idle_inputs : inputs := {|
  in_form := {| reg_name := ""; reg_id := ""; reg_email := ""; reg_phone := "";
                reg_img := None; reg_submit := false |};
  in_selected_class := None; in_face_img := None; in_timestamp := "";
  in_admin := {| admin_code := ""; new_class := ""; add_pressed := false;
                 class_to_remove := None; remove_pressed := false;
                 selected := None; date := "";
                 download_class := None; download_date := "";
                 download_pressed := false |}
|}.

(** The names of [l] for which the bootstrap loop has to create a folder
    when the registry already has the names [seen]: those not yet seen, each
    once, in the order of [l]. *)
Fixpoint missing_names (l : list string) (seen : gset string) : list string :=
  match l with
  | [] => []
  | c :: l' =>
      if bool_decide (c ∈ seen) then missing_names l' seen
      else c :: missing_names l' ({[c]} ∪ seen)
  end.

(** The registry [cf] extended with one entry per folder of [fs]. *)
Definition with_folders (cf : gmap string string) (fs : list drive_file)
    : gmap string string :=
  foldl (λ acc f, <[df_name f := df_id f]> acc) cf fs.

(** The folder that lines 56-63 create for class [cls] when Drive holds
    [d]. *)
Definition class_folder_for `{Externals} (d : list drive_file) (cls : string)
    : drive_file :=
  {| df_name := cls; df_mimeType := Some "application/vnd.google-apps.folder";
     df_parents := [PARENT_FOLDER_ID]; df_media := None;
     df_id := drive_new_id d |}.

(** What a block of the registry may do to the world: nothing but tracing,
    or leave a registry that is in the session and in the file alike, with
    Drive only extended and every handle backed by a folder if the handles
    were backed before. *)
Definition registry_step (w w' : World) : Prop :=
  same_stores w w' ∨
  ∃ cf', class_folders w' = Some cf' ∧ class_folders_pkl w' = Some cf' ∧
         drive w `prefix_of` drive w' ∧
         (registry_backed_world w → registry_backed cf' (drive w')).

(** The object that lines 136-142 upload for a check-in. *)
Definition evidence_upload `{Externals} (d : list drive_file) (name student_id cls : string)
    (timestamp : string) (folder : string) (face_img : image) : drive_file :=
  {| df_name := name +:+ "_" +:+ student_id +:+ "_" +:+ cls +:+ "_"
                +:+ Py.replace ":" "-" timestamp +:+ ".jpg";
     df_mimeType := None; df_parents := [folder]; df_media := Some face_img;
     df_id := drive_new_id d |}.

(** The ledger row of lines 151-160. *)
Definition present_row (timestamp name student_id email phone cls file_id : string)
    : list string :=
  [timestamp; name; student_id; email; phone; cls; "Present";
   "https://drive.google.com/file/d/" +:+ file_id +:+ "/view"].

(** The folder of [demo_class], with id [A]. *)
Definition demo_folder : drive_file := {|
  df_name := demo_class;
  df_mimeType := Some "application/vnd.google-apps.folder";
  df_parents := ["1_nqo09S2_8pxS9mVvdwwXO1IfVGD1vn7"];
  df_media := None; df_id := "A"
|}.

(** A session that has loaded a registry of one class, whose folder is on
    Drive, and an empty gallery. *)
Definition loaded_world : World := {|
  known_faces := []; known_metadata := [];
  known_faces_pkl := None;
  class_folders := Some {[ demo_class := "A" ]};
  class_folders_pkl := Some {[ demo_class := "A" ]};
  drive := [demo_folder];
  sheets := ∅; log := []
|}.

(** The same session with one student in the gallery. *)
Definition registered_world : World := {|
  known_faces := [[97 # 100]];
  known_metadata := [new_metadata (demo_form "Bala" "a")];
  known_faces_pkl := Some ([[97 # 100]], [new_metadata (demo_form "Bala" "a")]);
  class_folders := Some {[ demo_class := "A" ]};
  class_folders_pkl := Some {[ demo_class := "A" ]};
  drive := [demo_folder];
  sheets := ∅; log := []
|}.

(** A gallery whose file held a descriptor and no metadata. *)
Definition unpaired_world : World := {|
  known_faces := [[52 # 100]]; known_metadata := [];
  known_faces_pkl := Some ([[52 # 100]], []);
  class_folders := Some {[ demo_class := "A" ]};
  class_folders_pkl := Some {[ demo_class := "A" ]};
  drive := [demo_folder];
  sheets := ∅; log := []
|}.

(** A spreadsheet whose worksheet for the class was not made by the
    script. *)
Definition foreign_sheet_world : World := {|
  known_faces := []; known_metadata := [];
  known_faces_pkl := None; class_folders := None; class_folders_pkl := None;
  drive := [];
  sheets := {[ demo_class := [["Name"; "Student ID"]; ["Aina"; "CB21001"]] ]};
  log := []
|}.

(** Every button of the admin panel pressed behind a wrong code. *)
Definition guessing_admin : admin_inputs := {|
  admin_code := "admin"; new_class := "Physics"; add_pressed := true;
  class_to_remove := Some demo_class; remove_pressed := true;
  selected := Some demo_class; date := "2024-01-01";
  download_class := Some demo_class; download_date := "2024-01-01";
  download_pressed := true
|}.

(** A run in which a student registers and checks in while somebody tries
    the admin panel. *)
Definition busy_inputs : inputs := {|
  in_form := demo_form "Aina" "4";
  in_selected_class := Some demo_class; in_face_img := Some "4";
  in_timestamp := "2024-01-01 10:00:00";
  in_admin := guessing_admin
|}.
(** ** Proofs *)

(** Unfold the monad operations and the store accessors of a block applied
    to a world. *)
Ltac wsimpl :=
  cbn [known_faces known_metadata known_faces_pkl class_folders class_folders_pkl
       drive sheets log set_gallery set_known_faces_pkl set_class_folders
       set_class_folders_pkl set_drive set_sheets set_log fst snd] in *.

Ltac mrun :=
  cbv beta iota delta [mbind M_bind mret M_ret get modify raise emit st or_raise
                       option_bind];
  wsimpl.

Lemma new_events_app (w w' : World) (evs : list event) :
  log w' = log w ++ evs → new_events w w' = evs.
Proof. unfold new_events. intros ->. apply drop_app_length. Qed.

Lemma same_stores_set_log (w : World) (l : list event) : same_stores w (set_log l w).
Proof. repeat split. Qed.

(** *** Strings *)

Lemma contains_spec (c : ascii) (s : string) :
  Py.contains c s = true ↔ c ∈ chars s.
Proof.
  induction s as [|a s IH]; simpl.
  - split; [done|]. intros Hc. inversion Hc.
  - destruct (Ascii.eqb_spec a c) as [->|Hne].
    + split; [intros _; left|done].
    + rewrite IH. split; [by right|]. intros Hc. inversion Hc; congruence.
Qed.

Lemma forallb_spec {A : Type} (p : A → bool) (l : list A) :
  forallb p l = true ↔ Forall (λ c, p c = true) l.
Proof.
  induction l as [|a l IH]; simpl.
  - split; [constructor|done].
  - rewrite andb_true_iff, IH. split.
    + intros [??]. by constructor.
    + intros Hf. inversion Hf; subst. done.
Qed.

Lemma isdigit_spec (s : string) :
  Py.isdigit s = true ↔ s ≠ "" ∧ all_digits s.
Proof.
  unfold Py.isdigit, all_digits. rewrite andb_true_iff, forallb_spec.
  destruct s; cbn [Py.not_ negb]; split; intros [??]; done.
Qed.

Lemma lstrip_whitespace (l : list N) :
  Forall (λ c, Py.isspace_cp c = true) l → Py.lstrip l = [].
Proof.
  induction l as [|c l IH]; [done|].
  intros Hw. inversion Hw as [|?? Hc Hl]; subst. cbn [Py.lstrip]. rewrite Hc. by apply IH.
Qed.

Lemma strip_whitespace (s : string) : whitespace_only s → Py.strip s = [].
Proof. intros Hw. unfold Py.strip. by rewrite lstrip_whitespace. Qed.

Section Claims.

Context `{Externals}.

(** *** Registration *)

Lemma tab1_valid (f : register_form) (img : image) (w : World) :
  valid_registration f img →
  tab1 f w = tab1_encodings f (face_encodings img) w.
Proof.
  intros (Hs & Hn & Hi & He & Hp & Himg & Hat & Hdot & Hd & [Hlo Hhi] & _).
  apply contains_spec in Hat, Hdot.
  assert (Py.isdigit (reg_phone f) = true) as Hdig by by apply isdigit_spec.
  unfold tab1. rewrite Hs, Himg, Hat, Hdot, Hdig.
  destruct (reg_name f); [done|]. destruct (reg_id f); [done|].
  destruct (reg_email f); [done|]. destruct (reg_phone f) eqn:E; [done|].
  cbn [Py.not_ orb negb]. rewrite <- E in *.
  unfold Py.len.
  destruct (Nat.ltb_spec (length (Py.code_points (reg_phone f))) 10); [lia|].
  destruct (Nat.ltb_spec 15 (length (Py.code_points (reg_phone f)))); [lia|].
  reflexivity.
Qed.

(** C3. A valid registration (the four fields filled in, an [@] and a dot in
    the email, a phone number of 10 to 15 characters that are all digits
    for Python, in any script, at least one face in the picture) appends
    one descriptor and one metadata entry holding the submitted name,
    student id, email and phone, and the first thing the block does next is
    to dump both whole lists to [known_faces.pkl]. *)
Theorem registration_appends_and_persists (f : register_form) (img : image) (w : World) :
  valid_registration f img →
  ∃ (e : embedding) (w' : World),
    head (face_encodings img) = Some e ∧
    tab1 f w = (w', Ok tt) ∧
    known_faces w' = known_faces w ++ [e] ∧
    known_metadata w' = known_metadata w ++ [new_metadata f] ∧
    length (known_faces w') = S (length (known_faces w)) ∧
    length (known_metadata w') = S (length (known_metadata w)) ∧
    new_metadata f !! "name" = Some (reg_name f) ∧
    new_metadata f !! "student_id" = Some (reg_id f) ∧
    new_metadata f !! "email" = Some (reg_email f) ∧
    new_metadata f !! "phone" = Some (reg_phone f) ∧
    known_faces_pkl w' = Some (known_faces w', known_metadata w') ∧
    new_events w w' =
      [EvPickleDump "known_faces.pkl";
       EvUI (st_success ("✅ " +:+ reg_name f +:+ " registered successfully!"))].
Proof.
  intros Hv. rewrite (tab1_valid f img w Hv).
  destruct Hv as (_ & _ & _ & _ & _ & _ & _ & _ & _ & _ & Hface).
  destruct (face_encodings img) as [|e rest]; [done|].
  exists e. eexists. split; [done|]. split.
  { unfold tab1_encodings. mrun. reflexivity. }
  wsimpl. rewrite !length_app. cbn [length].
  repeat split; try lia; try done.
  apply new_events_app. by rewrite <- app_assoc.
Qed.

(** *** Empty gallery *)

(** C2. With no registered face, a picture in which a face was found is
    answered with the message for an empty gallery, not with the one for a
    face that is too far from every entry; no distance is computed and no
    store changes. *)
Theorem empty_gallery_reported_distinctly (w : World) (selected_class : option string)
    (img : image) (timestamp : string) :
  known_faces w = [] →
  face_encodings img ≠ [] →
  ∃ w' : World,
    tab2 selected_class (Some img) timestamp w = (w', Ok tt) ∧
    new_events w w' = [EvUI (st_error "⚠️ No registered faces found.")] ∧
    (EvUI (st_error "❌ Face not recognized.") ∉ new_events w w') ∧
    (∀ n, EvFaceDistance n ∉ new_events w w') ∧
    same_stores w w'.
Proof.
  intros Hk He. unfold tab2, tab2_encodings.
  destruct (face_encodings img) as [|q rest]; [done|].
  mrun. rewrite Hk. eexists. split; [reflexivity|].
  rewrite (new_events_app w _ [EvUI (st_error "⚠️ No registered faces found.")]) by done.
  repeat split; try done.
  - intros Hin. apply list_elem_of_singleton in Hin. discriminate.
  - intros n Hin. apply list_elem_of_singleton in Hin. discriminate.
Qed.

(** *** Adding a class *)

(** C10. A class name that is empty or made only of characters that are
    whitespace for Python (no-break and ideographic spaces included) is
    turned down: the block shows the error and changes no store, so no
    registry entry is added, no folder is created and no file is written. *)
Theorem blank_class_name_rejected (w : World) (new_class : string) :
  whitespace_only new_class →
  ∃ w' : World,
    add_class true new_class w = (w', Ok tt) ∧
    new_events w w' = [EvUI (st_error "Class name cannot be empty.")] ∧
    same_stores w w'.
Proof.
  intros Hw. unfold add_class.
  rewrite bool_decide_eq_true_2 by (by apply strip_whitespace).
  mrun. eexists. split; [reflexivity|].
  split; [by apply new_events_app|]. apply same_stores_set_log.
Qed.

(** *** Minimum and first index *)

Lemma lt_spec (a b : Q) : Py.lt a b = true ↔ (a < b)%Q.
Proof.
  unfold Py.lt. rewrite negb_true_iff. split.
  - intros Hf. apply Qnot_le_lt. intros Hle. apply Qle_bool_iff in Hle. congruence.
  - intros Hlt. destruct (Qle_bool b a) eqn:E; [|done].
    apply Qle_bool_iff in E. by apply Qlt_not_le in Hlt.
Qed.

Lemma lt_false (a b : Q) : Py.lt a b = false ↔ (b <= a)%Q.
Proof.
  unfold Py.lt. rewrite negb_false_iff. apply Qle_bool_iff.
Qed.

Lemma min_from_spec (l : list Q) (cur : Q) :
  (Py.min_from cur l = cur ∨ Py.min_from cur l ∈ l) ∧
  (Py.min_from cur l <= cur)%Q ∧
  ∀ x, x ∈ l → (Py.min_from cur l <= x)%Q.
Proof.
  revert cur. induction l as [|x l IH]; intros cur; simpl.
  - split; [by left|]. split; [apply Qle_refl|]. intros x Hx. inversion Hx.
  - destruct (IH (if Py.lt x cur then x else cur)) as (Hin & Hle & Hall).
    destruct (Py.lt x cur) eqn:E.
    + apply lt_spec in E. split.
      { destruct Hin as [->|?]; right; [left|by right]. }
      split.
      { eapply Qle_trans; [exact Hle|]. by apply Qlt_le_weak. }
      intros y Hy. inversion Hy; subst; [done|by apply Hall].
    + apply lt_false in E. split.
      { destruct Hin as [->|?]; [by left|right; by right]. }
      split; [done|].
      intros y Hy. inversion Hy; subst; [by eapply Qle_trans|by apply Hall].
Qed.

Lemma min_spec (l : list Q) : l ≠ [] → ∃ m, Py.min l = Some m ∧ is_minimum m l.
Proof.
  destruct l as [|x l]; [done|]. intros _. exists (Py.min_from x l).
  split; [done|]. destruct (min_from_spec l x) as (Hin & Hle & Hall). split.
  - destruct Hin as [->|?]; [left|by right].
  - intros y Hy. inversion Hy; subst; [done|by apply Hall].
Qed.

Lemma is_minimum_unique (l : list Q) (m m' : Q) :
  is_minimum m l → is_minimum m' l → (m == m')%Q.
Proof.
  intros [Hin Hle] [Hin' Hle']. apply Qle_antisym; auto.
Qed.

Lemma index_from_first (l : list Q) (x : Q) (i j : nat) :
  first_at l x j → Py.index_from i l x = Some (i + j)%nat.
Proof.
  revert i j. induction l as [|y l IH]; intros i j [(z & Hz & Hzx) Hfirst].
  - done.
  - simpl. destruct j as [|j].
    + simpl in Hz. injection Hz as ->.
      apply Qeq_bool_iff in Hzx. rewrite Hzx. f_equal. lia.
    + destruct (Qeq_bool y x) eqn:E.
      { apply Qeq_bool_iff in E. exfalso. apply (Hfirst 0%nat y); [lia|done|done]. }
      replace (i + S j)%nat with (S i + j)%nat by lia. apply IH. split.
      * exists z. done.
      * intros j' z' Hj' Hz'. apply (Hfirst (S j') z'); [lia|done].
Qed.

Lemma index_from_found (l : list Q) (x : Q) (i : nat) :
  x ∈ l → ∃ j, Py.index_from i l x = Some (i + j)%nat ∧ first_at l x j.
Proof.
  revert i. induction l as [|y l IH]; intros i Hin; [inversion Hin|].
  simpl. destruct (Qeq_bool y x) eqn:E.
  - exists 0%nat. split; [f_equal; lia|]. split.
    + exists y. split; [done|]. by apply Qeq_bool_iff.
    + intros j' z Hj'. lia.
  - assert (x ∈ l) as Hin'.
    { inversion Hin; subst; [|done]. rewrite Qeq_bool_refl in E. done. }
    destruct (IH (S i) Hin') as (j & Hj & (y' & Hy' & Hyx) & Hfirst).
    exists (S j). split; [rewrite Hj; f_equal; lia|]. split.
    + exists y'. done.
    + intros [|j'] z Hj' Hz.
      * simpl in Hz. injection Hz as <-. intros Heq.
        apply Qeq_bool_iff in Heq. congruence.
      * apply (Hfirst j' z); [lia|done].
Qed.

Lemma first_at_proper (l : list Q) (x x' : Q) (j : nat) :
  (x == x')%Q → first_at l x j → first_at l x' j.
Proof.
  intros Hx [(y & Hy & Hyx) Hfirst]. split.
  - exists y. split; [done|]. by rewrite <- Hx.
  - intros j' z Hj' Hz Hzx. apply (Hfirst j' z Hj' Hz). by rewrite Hx.
Qed.

Lemma lt_proper (a a' b : Q) : (a == a')%Q → Py.lt a b = Py.lt a' b.
Proof.
  intros Ha. unfold Py.lt. f_equal. by rewrite Ha.
Qed.

(** *** The threshold literal

    No float lies between 45/100 and the float that [0.45] denotes, so on
    float distances the test [min_distance < 0.45] of the script and the
    test against the rational 45/100 used here agree. *)

Lemma threshold_literal_exact (x : Q) :
  binary64_value x → (x < 0.45)%Q ↔ (x < float_0_45)%Q.
Proof.
  intros (m & k & Hm & Hx). split.
  - intros Hlt. eapply Qlt_trans; [exact Hlt|]. reflexivity.
  - destruct Hx as [[Hk ->]|[Hk ->]]; unfold float_0_45, Qlt; cbn [Qnum Qden inject_Z].
    + intros Hlt. assert (m * 2 ^ k <= 0)%Z by lia. lia.
    + assert (0 < 2 ^ k)%Z as Hpos by (apply Z.pow_pos_nonneg; lia).
      rewrite Z2Pos.id by exact Hpos.
      destruct (Z.le_gt_cases k 54) as [Hle|Hgt].
      * assert (2 ^ 54 = 2 ^ k * 2 ^ (54 - k))%Z as Hsplit.
        { rewrite <- Z.pow_add_r by lia. f_equal. lia. }
        assert (0 < 2 ^ (54 - k))%Z as Hj by (apply Z.pow_pos_nonneg; lia).
        change (2 ^ 54)%Z with 18014398509481984%Z in Hsplit.
        generalize dependent (2 ^ (54 - k))%Z. generalize dependent (2 ^ k)%Z.
        intros a Ha j Hsplit Hj Hlt.
        assert (m * j < 8106479329266893)%Z as Hmj by nia.
        assert (100 * (m * j) < 45 * (a * j))%Z as Hscaled by lia.
        nia.
      * assert (2 ^ k = 2 ^ 54 * 2 ^ (k - 54))%Z as Hsplit.
        { rewrite <- Z.pow_add_r by lia. f_equal. lia. }
        assert (2 <= 2 ^ (k - 54))%Z as Hj.
        { change 2%Z with (2 ^ 1)%Z at 1. apply Z.pow_le_mono_r; lia. }
        rewrite Hsplit. intros _.
        change (2 ^ 54)%Z with 18014398509481984%Z.
        change (2 ^ 53)%Z with 9007199254740992%Z in Hm.
        clear Hsplit Hpos. generalize dependent (2 ^ (k - 54))%Z. intros j Hj.
        nia.
Qed.

(** *** The matcher *)

Lemma matcher_run (w : World) (q : embedding) (m : Q) (i : nat) :
  Py.min (distances_to w q) = Some m →
  Py.index (distances_to w q) m = Some i →
  matcher q w =
    (set_log (log w ++ [EvFaceDistance (length (known_faces w))]) w,
     if Py.lt m 0.45 then
       match known_metadata w !! i with
       | Some matched => Ok (Some matched)
       | None => Raise IndexError
       end
     else Ok None).
Proof.
  unfold distances_to. intros Hmin Hidx.
  unfold matcher, face_distance. mrun. rewrite Hmin, Hidx.
  destruct (Py.lt m 0.45); [|done].
  by destruct (known_metadata w !! i).
Qed.

Lemma distances_nonempty (w : World) (q : embedding) :
  known_faces w ≠ [] → distances_to w q ≠ [].
Proof. unfold distances_to. by destruct (known_faces w). Qed.

Lemma distances_lookup (w : World) (q : embedding) (i : nat) (d : Q) :
  distances_to w q !! i = Some d →
  ∃ face, known_faces w !! i = Some face ∧ d = distance face q.
Proof.
  unfold distances_to. rewrite list_lookup_fmap.
  destruct (known_faces w !! i) as [face|]; [|done].
  intros [= <-]. by exists face.
Qed.

(** C1. On a non-empty gallery whose two lists pair up, the matcher returns
    an identity exactly when the least distance to the gallery is below
    0.45; a least distance of exactly 0.45 returns none, and the attendance
    block then shows that the face was not recognised and changes no
    store.  A returned identity belongs to an entry at that least
    distance. *)
Theorem matcher_accepts_iff_below_threshold (w : World) (q : embedding) :
  known_faces w ≠ [] →
  paired w →
  ∃ (m : Q) (r : option (gmap string string)) (w' : World),
    is_minimum m (distances_to w q) ∧
    matcher q w = (w', Ok r) ∧
    (is_Some r ↔ (m < 0.45)%Q) ∧
    ((m == 0.45)%Q → r = None) ∧
    (∀ matched, r = Some matched →
       ∃ i face, known_faces w !! i = Some face ∧
                 known_metadata w !! i = Some matched ∧
                 (distance face q == m)%Q) ∧
    (r = None →
       ∀ selected_class img timestamp rest,
       ∃ w'' : World,
         tab2_encodings selected_class img timestamp (q :: rest) w = (w'', Ok tt) ∧
         new_events w w'' =
           [EvFaceDistance (length (known_faces w));
            EvUI (st_error "❌ Face not recognized.")] ∧
         same_stores w w'').
Proof.
  intros Hne Hpaired.
  destruct (min_spec (distances_to w q) (distances_nonempty w q Hne))
    as (m & Hmin & Hism).
  destruct (index_from_found (distances_to w q) m 0 (proj1 Hism))
    as (i & Hidx & (d & Hd & Hdm) & Hfirst).
  simpl in Hidx. fold (Py.index (distances_to w q) m) in Hidx.
  destruct (distances_lookup w q i d Hd) as (face & Hface & ->).
  assert (is_Some (known_metadata w !! i)) as [matched Hmatched].
  { apply lookup_lt_is_Some. rewrite <- Hpaired. by eapply lookup_lt_Some. }
  pose proof (matcher_run w q m i Hmin Hidx) as Hrun. rewrite Hmatched in Hrun.
  exists m. destruct (Py.lt m 0.45) eqn:Hlt.
  - apply lt_spec in Hlt. exists (Some matched). eexists.
    split; [done|]. split; [exact Hrun|]. split; [by split|]. split.
    { intros Heq. rewrite Heq in Hlt. by apply Qlt_irrefl in Hlt. }
    split; [|done]. intros ? [= <-]. by exists i, face.
  - apply lt_false in Hlt. exists None. eexists.
    split; [done|]. split; [exact Hrun|]. split.
    { split; [by intros [??]|]. intros Hlt'. by apply Qlt_not_le in Hlt'. }
    split; [done|]. split; [done|]. intros _ selected_class img timestamp rest.
    unfold tab2_encodings.
    cbv beta iota delta [mbind M_bind get].
    destruct (known_faces w) eqn:Hk; [done|]. rewrite <- Hk. rewrite Hrun.
    mrun. eexists. split; [reflexivity|]. split.
    + apply new_events_app. by rewrite Hk, <- app_assoc.
    + repeat split.
Qed.

(** C6. Whatever entries share the least distance, the index chosen is that
    of the one inserted first, and when that distance is accepted the
    identity returned is the one stored at that index. *)
Theorem matcher_first_minimum_wins (w : World) (q : embedding) (m : Q) (i : nat) :
  paired w →
  is_minimum m (distances_to w q) →
  first_at (distances_to w q) m i →
  ∃ m' : Q,
    Py.min (distances_to w q) = Some m' ∧ (m' == m)%Q ∧
    Py.index (distances_to w q) m' = Some i ∧
    ((m < 0.45)%Q →
       ∃ (matched : gmap string string) (w' : World),
         known_metadata w !! i = Some matched ∧
         matcher q w = (w', Ok (Some matched))).
Proof.
  intros Hpaired Hism Hfirst.
  assert (distances_to w q ≠ []) as Hne.
  { destruct Hism as [Hin _]. intros Heq. rewrite Heq in Hin. inversion Hin. }
  destruct (min_spec _ Hne) as (m' & Hmin & Hism').
  pose proof (is_minimum_unique _ _ _ Hism' Hism) as Heq.
  assert (Py.index (distances_to w q) m' = Some i) as Hidx.
  { apply (index_from_first _ _ 0). apply (first_at_proper _ m); [by symmetry|done]. }
  exists m'. split; [done|]. split; [done|]. split; [done|].
  intros Hlt. destruct Hfirst as [(d & Hd & _) _].
  destruct (distances_lookup w q i d Hd) as (face & Hface & _).
  assert (is_Some (known_metadata w !! i)) as [matched Hmatched].
  { apply lookup_lt_is_Some. rewrite <- Hpaired. by eapply lookup_lt_Some. }
  exists matched. eexists. split; [done|].
  rewrite (matcher_run w q m' i Hmin Hidx), Hmatched.
  rewrite (lt_proper m' m 0.45 Heq). apply lt_spec in Hlt. by rewrite Hlt.
Qed.

(** *** The attendance ledger *)

Lemma matcher_world (w w0 : World) (q : embedding) (r : result (option (gmap string string))) :
  matcher q w = (w0, r) →
  w0 = set_log (log w ++ [EvFaceDistance (length (known_faces w))]) w.
Proof.
  unfold matcher, face_distance. mrun.
  destruct (Py.min _) as [m|]; [|by intros [= <- _]].
  destruct (Py.index _ m) as [i|]; [|by intros [= <- _]].
  destruct (Py.lt m 0.45); [|by intros [= <- _]].
  destruct (known_metadata w !! i); by intros [= <- _].
Qed.

(** C5. An accepted check-in for a class of the registry adds to that
    class's worksheet one row, with the matched name, student id, email and
    phone and the status [Present]; a worksheet that did not exist is
    created and receives the fixed header row first.  No other worksheet
    changes, and the trace shows the effects in that order. *)
Theorem accepted_checkin_appends_present_row (w w0 : World) (q : embedding)
    (rest : list embedding) (matched cf : gmap string string)
    (cls folder name student_id : string) (img : image) (timestamp : string) :
  known_faces w ≠ [] →
  matcher q w = (w0, Ok (Some matched)) →
  matched !! "name" = Some name →
  matched !! "student_id" = Some student_id →
  class_folders w = Some cf →
  cf !! cls = Some folder →
  ∃ (w' : World) (upload : drive_file),
    tab2_encodings (Some cls) img timestamp (q :: rest) w = (w', Ok tt) ∧
    let row := [timestamp; name; student_id;
                default "" (matched !! "email"); default "" (matched !! "phone");
                cls; "Present";
                "https://drive.google.com/file/d/" +:+ df_id upload +:+ "/view"] in
    sheets w' !! cls =
      Some match sheets w !! cls with
           | Some old => old ++ [row]
           | None => [HEADER_ROW; row]
           end ∧
    (∀ other, other ≠ cls → sheets w' !! other = sheets w !! other) ∧
    new_events w w' =
      [EvFaceDistance (length (known_faces w)); EvDriveCreate upload] ++
      match sheets w !! cls with
      | Some _ => []
      | None => [EvAddWorksheet cls; EvAppendRow cls HEADER_ROW]
      end ++
      [EvAppendRow cls row;
       EvUI (st_success ("✅ Attendance submitted for " +:+ name +:+ " (" +:+ student_id +:+ ")"))].
Proof.
  intros Hne Hm Hname Hsid Hcf Hcls.
  pose proof (matcher_world _ _ _ _ Hm) as ->.
  unfold tab2_encodings. cbv beta iota delta [mbind M_bind get].
  destruct (known_faces w) eqn:Hk; [done|]. rewrite <- Hk, Hm.
  unfold submit, session_class_folders, drive_create, add_worksheet, append_row.
  mrun. rewrite Hname, Hsid. mrun. rewrite Hcf. mrun. rewrite Hcls.
  cbn [Py.str_opt]. mrun.
  destruct (sheets w !! cls) as [old|] eqn:Hsheet.
  - rewrite bool_decide_eq_true_2 by done. mrun.
    eexists. eexists. split; [reflexivity|]. wsimpl. split; [|split].
    3: { apply new_events_app. rewrite Hk, <- !app_assoc. reflexivity. }
    + cbn [df_id]. by rewrite lookup_alter_eq, Hsheet.
    + intros other Hother. by rewrite lookup_alter_ne.
  - rewrite bool_decide_eq_false_2 by (by intros [??]). mrun.
    eexists. eexists. split; [reflexivity|]. wsimpl. split; [|split].
    3: { apply new_events_app. rewrite Hk, <- !app_assoc. reflexivity. }
    + cbn [df_id]. by rewrite !lookup_alter_eq, lookup_insert_eq.
    + intros other Hother. by rewrite !lookup_alter_ne, lookup_insert_ne.
Qed.

(** *** Bootstrap of the class registry *)

Lemma bootstrap_defaults_run (l : list string) (w : World) (cf : gmap string string) :
  class_folders w = Some cf →
  ∃ (w' : World) (cf' : gmap string string),
    bootstrap_defaults l w = (w', Ok tt) ∧
    class_folders w' = Some cf' ∧
    (∀ k v, cf !! k = Some v → cf' !! k = Some v) ∧
    (∀ c, c ∈ l → is_Some (cf' !! c)) ∧
    class_folders_pkl w' = class_folders_pkl w.
Proof.
  revert w cf. induction l as [|cls l IH]; intros w cf Hcf.
  - exists w, cf. split; [done|]. split; [done|]. split; [done|].
    split; [|done]. intros c Hc. inversion Hc.
  - cbn [bootstrap_defaults]. unfold session_class_folders.
    mrun. rewrite Hcf. mrun. case_bool_decide as Hin.
    + destruct (IH w cf Hcf) as (w' & cf' & Hrun & Hcf' & Hkeep & Hall & Hpkl).
      exists w', cf'. split; [done|]. split; [done|]. split; [done|].
      split; [|done]. intros c Hc. inversion Hc; subst; [|by apply Hall].
      destruct Hin as [v Hv]. exists v. by apply Hkeep.
    + unfold create_folder, drive_create, class_folders_setitem, session_class_folders.
      mrun. rewrite Hcf. mrun.
      match goal with
      | |- ∃ _ _, bootstrap_defaults l ?w1 = _ ∧ _ =>
          destruct (IH w1 (<[cls := drive_new_id (drive w)]> cf) eq_refl)
            as (w' & cf' & Hrun & Hcf' & Hkeep & Hall & Hpkl)
      end.
      exists w', cf'. split; [done|]. split; [done|]. split; [|split; [|done]].
      * intros k v Hk. apply Hkeep. rewrite lookup_insert_ne; [done|].
        intros ->. apply Hin. by exists v.
      * intros c Hc. inversion Hc; subst; [|by apply Hall].
        eexists. apply Hkeep. apply lookup_insert_eq.
Qed.

Lemma bootstrap_defaults_present (l : list string) (w : World) (cf : gmap string string) :
  class_folders w = Some cf →
  (∀ c, c ∈ l → is_Some (cf !! c)) →
  bootstrap_defaults l w = (w, Ok tt).
Proof.
  intros Hcf. induction l as [|cls l IH]; intros Hall; [done|].
  cbn [bootstrap_defaults]. unfold session_class_folders.
  mrun. rewrite Hcf. mrun.
  rewrite bool_decide_eq_true_2 by (apply Hall; left).
  apply IH. intros c Hc. apply Hall. by right.
Qed.

(** C4. After a bootstrap that ran, (a) the same session does not run it
    again, and (b) a later session, which starts from the registry file the
    first run wrote, finds every default class in it: it creates no folder,
    leaves the registry and the file as they were, and only writes the file
    again.  The first run itself keeps every entry the file already had. *)
Theorem bootstrap_second_run_is_noop (w : World) :
  class_folders w = None →
  ∃ (w1 : World) (cf : gmap string string),
    load_class_folders w = (w1, Ok tt) ∧
    class_folders w1 = Some cf ∧
    class_folders_pkl w1 = Some cf ∧
    (∀ saved k v, class_folders_pkl w = Some saved → saved !! k = Some v → cf !! k = Some v) ∧
    load_class_folders w1 = (w1, Ok tt) ∧
    ∃ w2 : World,
      load_class_folders (set_class_folders None w1) = (w2, Ok tt) ∧
      class_folders w2 = Some cf ∧
      class_folders_pkl w2 = Some cf ∧
      drive w2 = drive w1 ∧
      new_events w1 w2 = [EvPickleDump CLASS_FOLDERS_FILE].
Proof.
  intros Hnone. unfold load_class_folders at 1. mrun. rewrite Hnone. mrun.
  match goal with
  | |- context [bootstrap_defaults _ ?w0] =>
      destruct (bootstrap_defaults_run DEFAULT_CLASS_LIST w0
                  match class_folders_pkl w with Some saved => saved | None => ∅ end
                  eq_refl)
        as (w' & cf & Hrun & Hcf & Hkeep & Hall & Hpkl)
  end.
  rewrite Hrun. unfold dump_class_folders, session_class_folders.
  mrun. rewrite Hcf. mrun.
  eexists. exists cf. split; [reflexivity|]. wsimpl.
  split; [done|]. split; [done|]. split.
  { intros saved k v Hsaved Hk. apply Hkeep. by rewrite Hsaved. }
  split.
  { unfold load_class_folders. mrun. by rewrite Hcf. }
  unfold load_class_folders. mrun.
  rewrite (bootstrap_defaults_present DEFAULT_CLASS_LIST _ cf); [|reflexivity|exact Hall].
  unfold dump_class_folders, session_class_folders. mrun.
  eexists. split; [reflexivity|]. wsimpl. repeat split.
  by apply new_events_app.
Qed.

(** *** Pictures with no face or several faces *)

Lemma tab1_checked (f : register_form) (img : image) (w : World) :
  passes_field_checks f img →
  tab1 f w = tab1_encodings f (face_encodings img) w.
Proof.
  intros (Hs & Hn & Hi & He & Hp & Himg & Hat & Hdot & Hd & [Hlo Hhi]).
  apply contains_spec in Hat, Hdot.
  assert (Py.isdigit (reg_phone f) = true) as Hdig by by apply isdigit_spec.
  unfold tab1. rewrite Hs, Himg, Hat, Hdot, Hdig.
  destruct (reg_name f); [done|]. destruct (reg_id f); [done|].
  destruct (reg_email f); [done|]. destruct (reg_phone f) eqn:E; [done|].
  cbn [Py.not_ orb negb]. rewrite <- E in *. unfold Py.len.
  destruct (Nat.ltb_spec (length (Py.code_points (reg_phone f))) 10); [lia|].
  destruct (Nat.ltb_spec 15 (length (Py.code_points (reg_phone f)))); [lia|].
  reflexivity.
Qed.

(** C7, as the code has it.  Take a picture and a registration form that
    passes the field checks.  If the picture shows no face, registration and
    check-in both report the detection failure and change no store.  If it
    shows one face or several, registration appends the first descriptor,
    and only that one, with the submitted identity and persists the gallery,
    exactly as for a picture that shows the first face alone; and check-in,
    on a non-empty gallery, runs the matcher on the first descriptor and
    goes on with its answer. *)
Theorem first_face_is_consumed (f : register_form) (img : image)
    (selected_class : option string) (timestamp : string) (w : World) :
  passes_field_checks f img →
  match face_encodings img with
  | [] =>
      tab1 f w
        = (set_log (log w ++ [EvUI (st_error "❌ No face detected.")]) w, Ok tt) ∧
      tab2 selected_class (Some img) timestamp w
        = (set_log (log w ++ [EvUI (st_error "❌ No face detected.")]) w, Ok tt)
  | e :: rest =>
      (∃ w' : World,
         tab1 f w = (w', Ok tt) ∧
         known_faces w' = known_faces w ++ [e] ∧
         known_metadata w' = known_metadata w ++ [new_metadata f] ∧
         known_faces_pkl w' = Some (known_faces w', known_metadata w')) ∧
      (∀ img', face_encodings img' = [e] → tab1 (with_img f img') w = tab1 f w) ∧
      (known_faces w ≠ [] →
         tab2 selected_class (Some img) timestamp w =
           (m ← matcher e;
            match m with
            | Some matched => submit matched selected_class img timestamp
            | None => st (st_error "❌ Face not recognized.")
            end) w)
  end.
Proof.
  intros Hchecks. rewrite (tab1_checked f img w Hchecks).
  destruct (face_encodings img) as [|e rest] eqn:Henc.
  - split; [reflexivity|]. unfold tab2. by rewrite Henc.
  - split; [|split].
    + eexists. split; [unfold tab1_encodings; mrun; reflexivity|]. by wsimpl.
    + intros img' Henc'. rewrite (tab1_checked (with_img f img') img' w).
      * by rewrite Henc'.
      * destruct Hchecks as (Hs & Hn & Hi & He & Hp & Himg & Hat & Hdot & Hd & Hlen).
        unfold passes_field_checks, with_img.
        cbn [reg_name reg_id reg_email reg_phone reg_img reg_submit].
        repeat split; try done; apply Hlen.
    + intros Hne. unfold tab2, tab2_encodings. rewrite Henc.
      cbv beta iota delta [mbind M_bind get].
      by destruct (known_faces w).
Qed.

(** *** CSV export *)

Lemma export_missing (w : World) (cls date : string) :
  sheets w !! cls = None →
  export_report w cls date
    = ([EvUI (st_warning "No attendance data for selected class.")], Ok tt).
Proof.
  intros Hnone. unfold export_report, download_csv, get_class_data.
  mrun. rewrite Hnone. mrun. f_equal. by apply new_events_app.
Qed.

(** C8, as the code has it.  For a worksheet with a header row that has a
    [Timestamp] column and at least one record, none of them on the date,
    the export shows that there is no data for the date, which differs
    from what it shows when the worksheet is missing. *)
Theorem export_empty_date_differs_from_missing (w w' : World) (cls date : string)
    (header r : list string) (rs : list (list string)) :
  sheets w !! cls = Some (header :: r :: rs) →
  "Timestamp" ∈ header →
  rows_on date (header :: r :: rs) = [] →
  sheets w' !! cls = None →
  export_report w cls date = ([EvUI (st_warning "No data for selected date.")], Ok tt) ∧
  export_report w' cls date
    = ([EvUI (st_warning "No attendance data for selected class.")], Ok tt) ∧
  export_report w cls date ≠ export_report w' cls date.
Proof.
  intros Hsheet Hts Hrows Hnone.
  assert (export_report w cls date
          = ([EvUI (st_warning "No data for selected date.")], Ok tt)) as Hw.
  { unfold export_report, download_csv, get_class_data.
    mrun. rewrite Hsheet. cbn [get_all_records]. mrun.
    destruct header as [|h header]; [inversion Hts|].
    cbn [df_empty columns rows]. unfold timestamp_startswith. cbn [columns].
    unfold rows_on in Hrows.
    destruct (list_find (λ c, c = "Timestamp") (h :: header)) as [[i c]|] eqn:Hfind.
    - mrun. cbn [rows]. unfold Py.startswith. rewrite Hrows.
      destruct (h :: header); mrun; f_equal; by apply new_events_app.
    - exfalso. apply list_find_None in Hfind.
      rewrite Forall_forall in Hfind. by apply (Hfind "Timestamp"). }
  rewrite Hw, (export_missing w' cls date Hnone). done.
Qed.

(** *** The gallery lists stay paired *)

Lemma keeps_ret {A : Type} (a : A) : keeps_gallery (mret a).
Proof. done. Qed.

Lemma keeps_get : keeps_gallery get.
Proof. done. Qed.

Lemma keeps_raise {A : Type} (e : exn) : keeps_gallery (@raise A e).
Proof. done. Qed.

Lemma keeps_emit (ev : event) : keeps_gallery (emit ev).
Proof. done. Qed.

Lemma keeps_st (u : ui) : keeps_gallery (st u).
Proof. done. Qed.

Lemma keeps_or_raise {A : Type} (e : exn) (o : option A) : keeps_gallery (or_raise e o).
Proof. by destruct o. Qed.

Lemma keeps_set_class_folders (c : World → option (gmap string string)) :
  keeps_gallery (modify (λ w, set_class_folders (c w) w)).
Proof. done. Qed.

Lemma keeps_set_class_folders_pkl (c : World → option (gmap string string)) :
  keeps_gallery (modify (λ w, set_class_folders_pkl (c w) w)).
Proof. done. Qed.

Lemma keeps_set_drive (d : World → list drive_file) :
  keeps_gallery (modify (λ w, set_drive (d w) w)).
Proof. done. Qed.

Lemma keeps_set_sheets (s : World → gmap string (list (list string))) :
  keeps_gallery (modify (λ w, set_sheets (s w) w)).
Proof. done. Qed.

Lemma keeps_bind {A B : Type} (m : M A) (k : A → M B) :
  keeps_gallery m → (∀ a, keeps_gallery (k a)) → keeps_gallery (m ≫= k).
Proof.
  intros Hm Hk w. specialize (Hm w). unfold mbind, M_bind.
  destruct (m w) as [w' [a|e]]; cbn [fst] in *; [|done].
  by rewrite Hk.
Qed.

Create HintDb keeps.

#[local] Hint Resolve keeps_ret keeps_get keeps_raise keeps_emit keeps_st keeps_or_raise
  keeps_set_class_folders keeps_set_class_folders_pkl keeps_set_drive keeps_set_sheets
  : keeps.

(** Walk through a block: split binds, choose a branch, close the leaves. *)
Ltac keeps :=
  repeat first
    [ progress auto with keeps
    | apply keeps_bind; [|intros ?]
    | apply (keeps_set_class_folders (λ _, _))
    | apply (keeps_set_class_folders_pkl (λ _, _))
    | apply (keeps_set_drive (λ _, _))
    | match goal with
      | |- keeps_gallery (if ?b then _ else _) => destruct b
      | |- keeps_gallery (match ?x with _ => _ end) => destruct x
      end ].

Lemma keeps_session_class_folders : keeps_gallery session_class_folders.
Proof. unfold session_class_folders. keeps. Qed.

Lemma keeps_drive_create name mimeType parents media :
  keeps_gallery (drive_create name mimeType parents media).
Proof. unfold drive_create. keeps. Qed.

#[local] Hint Resolve keeps_session_class_folders keeps_drive_create : keeps.

Lemma keeps_class_folders_setitem k v : keeps_gallery (class_folders_setitem k v).
Proof. unfold class_folders_setitem. keeps. Qed.

Lemma keeps_dump_class_folders : keeps_gallery dump_class_folders.
Proof. unfold dump_class_folders. keeps. Qed.

#[local] Hint Resolve keeps_class_folders_setitem keeps_dump_class_folders : keeps.

Lemma keeps_bootstrap_defaults l : keeps_gallery (bootstrap_defaults l).
Proof.
  induction l as [|cls l IH]; cbn [bootstrap_defaults]; [keeps|].
  unfold create_folder. keeps.
Qed.

#[local] Hint Resolve keeps_bootstrap_defaults : keeps.

Lemma keeps_load_class_folders : keeps_gallery load_class_folders.
Proof. unfold load_class_folders. keeps. Qed.

Lemma keeps_matcher q : keeps_gallery (matcher q).
Proof. unfold matcher, face_distance. keeps. Qed.

Lemma keeps_append_row title row : keeps_gallery (append_row title row).
Proof. unfold append_row. keeps. Qed.

Lemma keeps_add_worksheet title : keeps_gallery (add_worksheet title).
Proof. unfold add_worksheet. keeps. Qed.

#[local] Hint Resolve keeps_matcher keeps_append_row keeps_add_worksheet : keeps.

Lemma keeps_submit matched selected_class face_img timestamp :
  keeps_gallery (submit matched selected_class face_img timestamp).
Proof. unfold submit. keeps. Qed.

#[local] Hint Resolve keeps_submit : keeps.

Lemma keeps_tab2 selected_class face_img timestamp :
  keeps_gallery (tab2 selected_class face_img timestamp).
Proof. unfold tab2, tab2_encodings. keeps. Qed.

Lemma keeps_add_class pressed new_class : keeps_gallery (add_class pressed new_class).
Proof. unfold add_class, create_folder. keeps. Qed.

Lemma keeps_remove_class pressed class_to_remove :
  keeps_gallery (remove_class pressed class_to_remove).
Proof. unfold remove_class. keeps. Qed.

Lemma keeps_download_csv pressed download_class download_date :
  keeps_gallery (download_csv pressed download_class download_date).
Proof. unfold download_csv, get_class_data. keeps. Qed.

Lemma keeps_paired {A : Type} (m : M A) (w : World) :
  keeps_gallery m → paired w ∧ file_paired w → paired (m w).1 ∧ file_paired (m w).1.
Proof.
  intros Hk. specialize (Hk w). unfold gallery_of in Hk.
  injection Hk as Hf Hm Hp. unfold paired, file_paired. by rewrite Hf, Hm, Hp.
Qed.

Lemma load_known_faces_paired (w : World) :
  file_paired w → paired (load_known_faces w).1 ∧ file_paired (load_known_faces w).1.
Proof.
  intros Hfile. unfold load_known_faces. mrun.
  destruct (known_faces_pkl w) as [[fs ms]|] eqn:Hpkl; mrun.
  - split; [by apply Hfile|]. unfold file_paired. wsimpl. rewrite Hpkl.
    intros ?? [= <- <-]. by apply Hfile.
  - split; [done|]. unfold file_paired. wsimpl. by rewrite Hpkl.
Qed.

Lemma tab1_encodings_paired (f : register_form) (encodings : list embedding) (w : World) :
  paired w ∧ file_paired w →
  paired (tab1_encodings f encodings w).1 ∧ file_paired (tab1_encodings f encodings w).1.
Proof.
  intros [Hp Hf]. destruct encodings as [|e rest]; [done|].
  unfold tab1_encodings. mrun. unfold paired, file_paired in *. wsimpl.
  assert (length (known_faces w ++ [e]) = length (known_metadata w ++ [new_metadata f]))
    as Hlen by (rewrite !length_app; cbn [length]; lia).
  split; [done|]. by intros fs ms [= <- <-].
Qed.

Lemma tab1_paired (f : register_form) (w : World) :
  paired w ∧ file_paired w → paired (tab1 f w).1 ∧ file_paired (tab1 f w).1.
Proof.
  intros Hinv. unfold tab1.
  repeat match goal with
         | |- context [if ?b then _ else _] => destruct b
         | |- context [match reg_img f with _ => _ end] => destruct (reg_img f)
         end; try done.
  by apply tab1_encodings_paired.
Qed.

Lemma exec_paired (o : op) (w : World) :
  paired w ∧ file_paired w → paired (exec o w).1 ∧ file_paired (exec o w).1.
Proof.
  intros Hinv. destruct o; cbn [exec].
  - apply load_known_faces_paired, Hinv.
  - by apply keeps_paired; [apply keeps_load_class_folders|].
  - by apply tab1_paired.
  - by apply keeps_paired; [apply keeps_tab2|].
  - by apply keeps_paired; [apply keeps_add_class|].
  - by apply keeps_paired; [apply keeps_remove_class|].
  - by apply keeps_paired; [apply keeps_download_csv|].
Qed.

Lemma exec_all_paired (os : list op) (w : World) :
  paired w ∧ file_paired w → paired (exec_all os w) ∧ file_paired (exec_all os w).
Proof.
  revert w. induction os as [|o os IH]; intros w Hinv; [done|].
  cbn [exec_all]. by apply IH, exec_paired.
Qed.

(** C9. Start from any world whose gallery file, if there is one, holds two
    lists of equal length.  After the load that opens every run, and after
    any sequence of blocks that follows (registrations included), the two
    lists in memory have equal length, so an index has a descriptor exactly
    when it has an identity, and the file still holds lists of equal
    length.  When the file is missing the load yields two empty lists. *)
Theorem gallery_lists_stay_paired (os : list op) (w : World) :
  file_paired w →
  paired (exec_all (LoadKnownFaces :: os) w) ∧
  file_paired (exec_all (LoadKnownFaces :: os) w) ∧
  (∀ i, is_Some (known_faces (exec_all (LoadKnownFaces :: os) w) !! i)
        ↔ is_Some (known_metadata (exec_all (LoadKnownFaces :: os) w) !! i)) ∧
  (known_faces_pkl w = None →
     known_faces (load_known_faces w).1 = [] ∧
     known_metadata (load_known_faces w).1 = []).
Proof.
  intros Hfile. cbn [exec_all exec].
  destruct (exec_all_paired os _ (load_known_faces_paired w Hfile)) as [Hp Hf].
  split; [done|]. split; [done|]. split.
  - intros i. rewrite !lookup_lt_is_Some. unfold paired in Hp. by rewrite Hp.
  - intros Hnone. unfold load_known_faces. mrun. by rewrite Hnone.
Qed.

End Claims.

(** ** The statements on concrete inputs *)

Example threshold_boundary :
  Py.lt 0.449999 0.45 = true ∧ Py.lt 0.45 0.45 = false.
Proof. by vm_compute. Qed.

Example boundary_distance_is_rejected :
  @distances_to demo_externals demo_world [0.97%Q] !! 0%nat = Some (Qabs (0.52 - 0.97)) ∧
  (Qabs (0.52 - 0.97) == 0.45)%Q ∧
  log (@tab2 demo_externals (Some demo_class) (Some "a") "2024-01-01 10:00:00"
         (set_gallery [[0.52%Q]] [∅] demo_world)).1
  = log demo_world ++ [EvFaceDistance 1; EvUI (st_error "❌ Face not recognized.")].
Proof. split; [|split]; by vm_compute. Qed.

Lemma matcher_accepts_iff_below_threshold_witness :
  known_faces demo_world ≠ [] ∧ paired demo_world ∧
  ∃ (m : Q) (r : option (gmap string string)) (w' : World),
    is_minimum m (@distances_to demo_externals demo_world [0.53%Q]) ∧
    @matcher demo_externals [0.53%Q] demo_world = (w', Ok r) ∧
    (is_Some r ↔ (m < 0.45)%Q).
Proof.
  assert (known_faces demo_world ≠ []) as Hne by (by vm_compute).
  assert (paired demo_world) as Hp by (by vm_compute).
  split; [exact Hne|]. split; [exact Hp|].
  destruct (@matcher_accepts_iff_below_threshold demo_externals demo_world [0.53%Q] Hne Hp)
    as (m & r & w' & Hmin & Hrun & Hiff & _).
  exists m, r, w'. split; [exact Hmin|]. split; [exact Hrun|exact Hiff].
Defined.

Lemma empty_gallery_reported_distinctly_witness :
  known_faces empty_world = [] ∧ @face_encodings demo_externals "a" ≠ [] ∧
  ∃ w' : World,
    @tab2 demo_externals (Some demo_class) (Some "a") "2024-01-01 10:00:00" empty_world
      = (w', Ok tt) ∧
    new_events empty_world w' = [EvUI (st_error "⚠️ No registered faces found.")].
Proof.
  assert (@face_encodings demo_externals "a" ≠ []) as Hface by (by vm_compute).
  split; [reflexivity|]. split; [exact Hface|].
  destruct (@empty_gallery_reported_distinctly demo_externals empty_world
              (Some demo_class) "a" "2024-01-01 10:00:00" eq_refl Hface)
    as (w' & Hrun & Hev & _).
  exists w'. split; [exact Hrun|exact Hev].
Defined.

Lemma demo_registration_valid :
  @valid_registration demo_externals (demo_form "Aina" "4") "4".
Proof.
  unfold valid_registration. cbn [demo_form reg_submit reg_name reg_id reg_email
    reg_phone reg_img].
  repeat split; try done; try (by apply contains_spec);
    try (by apply forallb_spec); vm_compute; lia.
Defined.

Lemma registration_appends_and_persists_witness :
  @valid_registration demo_externals (demo_form "Aina" "4") "4" ∧
  ∃ (e : embedding) (w' : World),
    @tab1 demo_externals (demo_form "Aina" "4") empty_world = (w', Ok tt) ∧
    known_faces w' = [e] ∧
    known_metadata w' = [new_metadata (demo_form "Aina" "4")] ∧
    known_faces_pkl w' = Some (known_faces w', known_metadata w').
Proof.
  split; [exact demo_registration_valid|].
  destruct (@registration_appends_and_persists demo_externals (demo_form "Aina" "4") "4"
              empty_world demo_registration_valid)
    as (e & w' & _ & Hrun & Hf & Hm & _ & _ & _ & _ & _ & _ & Hpkl & _).
  exists e, w'. split; [exact Hrun|]. split; [exact Hf|]. split; [exact Hm|exact Hpkl].
Defined.

Lemma bootstrap_second_run_is_noop_witness :
  class_folders empty_world = None ∧
  ∃ (w1 : World) (cf : gmap string string),
    @load_class_folders demo_externals empty_world = (w1, Ok tt) ∧
    class_folders w1 = Some cf ∧
    ∃ w2 : World,
      @load_class_folders demo_externals (set_class_folders None w1) = (w2, Ok tt) ∧
      class_folders w2 = Some cf ∧
      drive w2 = drive w1.
Proof.
  split; [reflexivity|].
  destruct (@bootstrap_second_run_is_noop demo_externals empty_world eq_refl)
    as (w1 & cf & Hrun & Hcf & _ & _ & _ & w2 & Hrun2 & Hcf2 & _ & Hdrive & _).
  exists w1, cf. split; [exact Hrun|]. split; [exact Hcf|].
  exists w2. split; [exact Hrun2|]. split; [exact Hcf2|exact Hdrive].
Defined.

Lemma accepted_checkin_appends_present_row_witness :
  known_faces demo_world ≠ [] ∧
  (∃ w' : World,
     @tab2_encodings demo_externals (Some demo_class) "5" "2024-01-01 10:00:00"
       [[0.53%Q]] demo_world = (w', Ok tt) ∧
     ∃ row : list string,
       sheets w' !! demo_class = Some [HEADER_ROW; row] ∧
       row !! 1%nat = Some "Aina" ∧ row !! 6%nat = Some "Present").
Proof.
  assert (known_faces demo_world ≠ []) as Hne by (by vm_compute).
  split; [exact Hne|].
  assert (Py.min (@distances_to demo_externals demo_world [0.53%Q]) = Some (100 # 10000))
    as Hmin by (vm_compute; reflexivity).
  assert (Py.index (@distances_to demo_externals demo_world [0.53%Q]) (100 # 10000) = Some 0%nat)
    as Hidx by (vm_compute; reflexivity).
  pose proof (@matcher_run demo_externals demo_world [0.53%Q] _ _ Hmin Hidx) as Hm.
  assert (Py.lt (100 # 10000) 0.45 = true) as Hlt by (vm_compute; reflexivity).
  rewrite Hlt in Hm.
  assert (bool_decide (is_Some (known_metadata demo_world !! 0%nat)) = true) as Hmd
    by (vm_compute; reflexivity).
  apply bool_decide_eq_true in Hmd as [matched Hmatched]. rewrite Hmatched in Hm.
  assert ((known_metadata demo_world !! 0%nat) ≫= (.!! "name") = Some "Aina") as Hname
    by (vm_compute; reflexivity).
  assert ((known_metadata demo_world !! 0%nat) ≫= (.!! "student_id") = Some "CB21001")
    as Hsid by (vm_compute; reflexivity).
  rewrite Hmatched in Hname, Hsid.
  assert (bool_decide (is_Some (class_folders demo_world)) = true) as Hcf
    by (vm_compute; reflexivity).
  apply bool_decide_eq_true in Hcf as [cf Hcf].
  assert (class_folders demo_world ≫= (.!! demo_class) = Some "C") as Hfolder
    by (vm_compute; reflexivity).
  rewrite Hcf in Hfolder.
  assert (sheets demo_world !! demo_class = None) as Hnone by (vm_compute; reflexivity).
  destruct (@accepted_checkin_appends_present_row demo_externals demo_world _ [0.53%Q] []
              matched cf demo_class "C" "Aina" "CB21001" "5" "2024-01-01 10:00:00"
              Hne Hm Hname Hsid Hcf Hfolder)
    as (w' & upload & Hrun & Hsheet & _).
  cbv zeta in Hsheet. rewrite Hnone in Hsheet.
  exists w'. split; [exact Hrun|].
  eexists. split; [exact Hsheet|]. split; reflexivity.
Defined.

Lemma demo_minimum :
  is_minimum (Qabs (0.52 - 0.53)) (@distances_to demo_externals demo_world [0.53%Q]).
Proof.
  split.
  - vm_compute. left.
  - intros x Hx. vm_compute in Hx.
    repeat (apply elem_of_cons in Hx as [->|Hx]); try (by vm_compute).
    inversion Hx.
Defined.

Lemma demo_first_at :
  first_at (@distances_to demo_externals demo_world [0.53%Q]) (Qabs (0.52 - 0.53)) 0.
Proof.
  split.
  - eexists. split; [by vm_compute|]. by vm_compute.
  - intros j' z Hj'. lia.
Defined.

Lemma matcher_first_minimum_wins_witness :
  paired demo_world ∧
  is_minimum (Qabs (0.52 - 0.53)) (@distances_to demo_externals demo_world [0.53%Q]) ∧
  first_at (@distances_to demo_externals demo_world [0.53%Q]) (Qabs (0.52 - 0.53)) 0 ∧
  @distances_to demo_externals demo_world [0.53%Q] !! 2%nat
    = @distances_to demo_externals demo_world [0.53%Q] !! 0%nat ∧
  ∃ m' : Q,
    Py.min (@distances_to demo_externals demo_world [0.53%Q]) = Some m' ∧
    Py.index (@distances_to demo_externals demo_world [0.53%Q]) m' = Some 0%nat.
Proof.
  assert (paired demo_world) as Hp by (by vm_compute).
  split; [exact Hp|]. split; [exact demo_minimum|]. split; [exact demo_first_at|].
  split; [by vm_compute|].
  destruct (@matcher_first_minimum_wins demo_externals demo_world [0.53%Q]
              (Qabs (0.52 - 0.53)) 0 Hp demo_minimum demo_first_at)
    as (m' & Hmin & _ & Hidx & _).
  exists m'. split; [exact Hmin|exact Hidx].
Defined.

Example phone_in_arabic_indic_digits_is_valid :
  Py.isdigit "٠١٢٣٤٥٦٧٨٩" = true ∧ Py.len "٠١٢٣٤٥٦٧٨٩" = 10%nat ∧
  String.length "٠١٢٣٤٥٦٧٨٩" = 20%nat.
Proof. by vm_compute. Qed.

Example blanks_of_every_script_are_stripped :
  Py.code_points blank_name = [9; 32; 160; 12288]%N ∧ Py.strip blank_name = [] ∧
  Py.strip (blank_name +:+ "a b" +:+ blank_name) = [97; 32; 98]%N.
Proof. by vm_compute. Qed.

Lemma demo_passes_field_checks :
  passes_field_checks (demo_form "Aina" "4a") "4a".
Proof.
  unfold passes_field_checks. cbn [demo_form reg_submit reg_name reg_id reg_email
    reg_phone reg_img].
  repeat split; try done; try (by apply contains_spec);
    try (by apply forallb_spec); vm_compute; lia.
Defined.

Lemma first_face_is_consumed_witness :
  passes_field_checks (demo_form "Aina" "4a") "4a" ∧
  @face_encodings demo_externals "4a" = [[0.52%Q]; [0.97%Q]] ∧
  ∃ w' : World,
    @tab1 demo_externals (demo_form "Aina" "4a") empty_world = (w', Ok tt) ∧
    known_faces w' = [[0.52%Q]] ∧
    known_metadata w' = [new_metadata (demo_form "Aina" "4a")].
Proof.
  split; [exact demo_passes_field_checks|]. split; [reflexivity|].
  pose proof (@first_face_is_consumed demo_externals (demo_form "Aina" "4a") "4a"
                (Some demo_class) "2024-01-01 10:00:00" empty_world
                demo_passes_field_checks) as Hthm.
  change (@face_encodings demo_externals "4a") with [[0.52%Q]; [0.97%Q]] in Hthm.
  destruct Hthm as ((w' & Hrun & Hfaces & Hmeta & _) & _).
  exists w'. split; [exact Hrun|]. split; [exact Hfaces|exact Hmeta].
Defined.

(** C7 as stated fails: a valid registration whose picture shows two faces
    is not turned down; it adds the first face to the gallery. *)
Lemma two_faces_are_registered :
  length (@face_encodings demo_externals "4a") = 2%nat ∧
  ¬ @rejects_unless_one_face demo_externals (demo_form "Aina" "4a") "4a" empty_world.
Proof.
  split; [reflexivity|]. intros Hc.
  destruct (Hc eq_refl) as [Hfaces _]; [by vm_compute|].
  vm_compute in Hfaces. discriminate.
Qed.

(** C8 as stated fails: a worksheet that holds only the header row has no
    row on the date, yet the export shows the same as for a missing
    worksheet. *)
Lemma header_only_sheet_reported_as_missing :
  is_Some (sheets header_only_world !! demo_class) ∧
  sheets empty_world !! demo_class = None ∧
  export_report header_only_world demo_class "2024-01-01"
    = export_report empty_world demo_class "2024-01-01" ∧
  ¬ export_tells_apart header_only_world empty_world demo_class "2024-01-01".
Proof.
  split; [by eexists|]. split; [by vm_compute|]. split; [by vm_compute|].
  intros Hc. apply (Hc [HEADER_ROW]); by vm_compute.
Qed.

Lemma export_empty_date_differs_from_missing_witness :
  export_report one_record_world demo_class "2024-01-02"
    = ([EvUI (st_warning "No data for selected date.")], Ok tt) ∧
  export_report one_record_world demo_class "2024-01-02"
    ≠ export_report empty_world demo_class "2024-01-02".
Proof.
  destruct (export_empty_date_differs_from_missing one_record_world empty_world
              demo_class "2024-01-02" HEADER_ROW
              ["2024-01-01 10:00:00"; "Aina"; "CB21001"; "aina@example.org";
               "0123456789"; demo_class; "Present";
               "https://drive.google.com/file/d/G/view"] []
              ltac:(by vm_compute)
              ltac:(left)
              ltac:(by vm_compute)
              ltac:(by vm_compute))
    as (Hw & _ & Hne).
  split; [exact Hw|exact Hne].
Defined.

Lemma file_paired_empty_world : file_paired empty_world.
Proof. intros fs ms Hpkl. discriminate Hpkl. Defined.

Lemma gallery_lists_stay_paired_witness :
  file_paired empty_world ∧
  paired (@exec_all demo_externals
            [LoadKnownFaces; LoadClassFolders; Tab1 (demo_form "Aina" "4");
             Tab2 (Some demo_class) (Some "5") "2024-01-01 10:00:00"]
            empty_world).
Proof.
  split; [exact file_paired_empty_world|].
  exact (proj1 (@gallery_lists_stay_paired demo_externals
                  [LoadClassFolders; Tab1 (demo_form "Aina" "4");
                   Tab2 (Some demo_class) (Some "5") "2024-01-01 10:00:00"]
                  empty_world file_paired_empty_world)).
Defined.

Lemma blank_class_name_rejected_witness :
  whitespace_only blank_name ∧
  ∃ w' : World,
    @add_class demo_externals true blank_name demo_world = (w', Ok tt) ∧
    same_stores demo_world w'.
Proof.
  assert (whitespace_only blank_name) as Hw by (by apply forallb_spec).
  split; [exact Hw|].
  destruct (@blank_class_name_rejected demo_externals demo_world _ Hw)
    as (w' & Hrun & _ & Hsame).
  exists w'. split; [exact Hrun|exact Hsame].
Defined.

(** ** Further properties of the script *)

(** *** Relations that hold along a run *)

Section Respects.

Context (R : World → World → Prop) `{!RunRelation R}.

Lemma respects_ret {A : Type} (a : A) : respects R (mret a).
Proof. intros w. apply run_refl. Qed.

Lemma respects_get : respects R get.
Proof. intros w. apply run_refl. Qed.

Lemma respects_raise {A : Type} (e : exn) : respects R (@raise A e).
Proof. intros w. apply run_refl. Qed.

Lemma respects_or_raise {A : Type} (e : exn) (o : option A) : respects R (or_raise e o).
Proof. destruct o; intros w; apply run_refl. Qed.

Lemma respects_emit (ev : event) : respects R (emit ev).
Proof. intros w. apply run_log. Qed.

Lemma respects_st (u : ui) : respects R (st u).
Proof. intros w. apply run_log. Qed.

Lemma respects_bind {A B : Type} (m : M A) (k : A → M B) :
  respects R m → (∀ a, respects R (k a)) → respects R (m ≫= k).
Proof.
  intros Hm Hk w. specialize (Hm w). unfold mbind, M_bind.
  destruct (m w) as [w' [a|e]]; cbn [fst] in *; [|done].
  eapply run_trans; [exact Hm|apply Hk].
Qed.

End Respects.

#[export] Instance drive_grows_run : RunRelation drive_grows.
Proof.
  split; unfold drive_grows.
  - done.
  - intros w1 w2 w3 H12 H23. by etrans.
  - done.
Qed.

#[export] Instance ledger_grows_run : RunRelation ledger_grows.
Proof.
  split; unfold ledger_grows.
  - intros w title rs Hrs. by exists rs.
  - intros w1 w2 w3 H12 H23 title rs Hrs.
    destruct (H12 title rs Hrs) as (rs2 & Hrs2 & Hpre2).
    destruct (H23 title rs2 Hrs2) as (rs3 & Hrs3 & Hpre3).
    exists rs3. split; [done|]. by etrans.
  - intros w l title rs Hrs. by exists rs.
Qed.

#[export] Instance keeps_registry_run : RunRelation keeps_registry.
Proof.
  split; unfold keeps_registry.
  - done.
  - intros w1 w2 w3 H12 H23. by rewrite H23.
  - done.
Qed.

#[export] Instance keeps_gallery_run : RunRelation keeps_gallery_rel.
Proof.
  split; unfold keeps_gallery_rel.
  - done.
  - intros w1 w2 w3 H12 H23. by rewrite H23.
  - done.
Qed.

#[export] Instance same_stores_run : RunRelation same_stores.
Proof.
  split; unfold same_stores.
  - intros w. repeat split.
  - intros w1 w2 w3 (?&?&?&?&?&?&?) (?&?&?&?&?&?&?). repeat split; congruence.
  - intros w l. repeat split.
Qed.

Create HintDb respects.

(** Walk through a block: split binds, choose a branch, close the leaves
    that are monad primitives, and hand each store update to [leaf]. *)
Ltac walk_with leaf :=
  repeat first
    [ progress auto with respects
    | match goal with
      | |- respects _ (mret _) => refine (respects_ret _ _)
      | |- respects _ get => refine (respects_get _)
      | |- respects _ (raise _) => refine (respects_raise _ _)
      | |- respects _ (or_raise _ _) => refine (respects_or_raise _ _ _)
      | |- respects _ (emit _) => refine (respects_emit _ _)
      | |- respects _ (st _) => refine (respects_st _ _)
      | |- respects _ (_ ≫= _) => refine (respects_bind _ _ _ _ _); [|intros ?]
      | |- respects _ session_class_folders => unfold session_class_folders
      | |- respects _ (class_folders_setitem _ _) => unfold class_folders_setitem
      | |- respects _ dump_class_folders => unfold dump_class_folders
      | |- respects _ (create_folder _) => unfold create_folder
      | |- respects _ (modify _) => intros ?; unfold modify; cbn [fst]; leaf
      | |- respects _ (if ?b then _ else _) => destruct b
      | |- respects _ (match ?x with _ => _ end) => destruct x
      end ].

Section Extras.

Context `{Externals}.

(** *** Drive is never shrunk *)

Ltac drive_leaf := unfold drive_grows; wsimpl; done.

Lemma drive_create_grows name mimeType parents media :
  respects drive_grows (drive_create name mimeType parents media).
Proof.
  intros w. unfold drive_create. mrun. unfold drive_grows. wsimpl.
  by apply prefix_app_r.
Qed.

#[local] Hint Resolve drive_create_grows : respects.

Lemma bootstrap_defaults_drive_grows l : respects drive_grows (bootstrap_defaults l).
Proof.
  induction l as [|cls l IH]; cbn [bootstrap_defaults].
  - walk_with drive_leaf.
  - unfold session_class_folders, create_folder, class_folders_setitem.
    walk_with drive_leaf.
Qed.

#[local] Hint Resolve bootstrap_defaults_drive_grows : respects.

Lemma exec_drive_grows (o : op) : respects drive_grows (exec o).
Proof.
  destruct o; cbn [exec];
    unfold load_known_faces, load_class_folders, dump_class_folders, tab1,
      tab1_encodings, tab2, tab2_encodings, matcher, face_distance, submit,
      add_worksheet, append_row, add_class, remove_class, download_csv,
      get_class_data, create_folder, class_folders_setitem, dump_class_folders,
      session_class_folders;
    walk_with drive_leaf.
Qed.

Lemma exec_all_respects (R : World → World → Prop) `{!RunRelation R} :
  (∀ o, respects R (exec o)) → ∀ os w, R w (exec_all os w).
Proof.
  intros Hexec os. induction os as [|o os IH]; intros w; cbn [exec_all].
  - apply run_refl.
  - eapply run_trans; [apply Hexec|apply IH].
Qed.

(** X1. No block ever removes or replaces an object on Drive: after any
    sequence of blocks the objects that were there are still there, in the
    same order, followed by the ones created since. *)
Theorem drive_only_grows (os : list op) (w : World) :
  drive w `prefix_of` drive (exec_all os w).
Proof. apply (exec_all_respects drive_grows exec_drive_grows). Qed.

(** *** The ledger is append-only *)

Lemma respects_bind_get (R : World → World → Prop) {B : Type} (k : World → M B) :
  (∀ w, R w (k w w).1) → respects R (get ≫= k).
Proof. intros Hk w. apply Hk. Qed.

Ltac ledger_leaf :=
  unfold ledger_grows; wsimpl;
  first [ done | intros ? rs0 Hrs0; exists rs0; by split ].

Lemma alter_append_grows (w : World) (title : string) (row : list string) :
  ledger_grows w (set_sheets (alter (λ rs, rs ++ [row]) title (sheets w)) w).
Proof.
  intros title' rs Hrs. wsimpl. destruct (decide (title = title')) as [<-|Hne].
  - exists (rs ++ [row]). rewrite lookup_alter_eq, Hrs. split; [done|].
    by apply prefix_app_r.
  - exists rs. by rewrite lookup_alter_ne.
Qed.

Lemma append_row_ledger_grows title row : respects ledger_grows (append_row title row).
Proof.
  unfold append_row. refine (respects_bind _ _ _ _ _); [|intros ?; apply respects_emit; apply _].
  intros w. apply alter_append_grows.
Qed.

#[local] Hint Resolve append_row_ledger_grows : respects.

Lemma submit_ledger_grows matched selected_class face_img timestamp :
  respects ledger_grows (submit matched selected_class face_img timestamp).
Proof.
  unfold submit, session_class_folders, drive_create.
  do 5 (refine (respects_bind _ _ _ _ _); [walk_with ledger_leaf|intros ?]).
  apply respects_bind_get. intros w.
  unfold add_worksheet, append_row. mrun. case_bool_decide as Hsheet.
  - mrun. intros title rs Hrs. wsimpl.
    destruct (decide (title = Py.str_opt selected_class)) as [->|Hne].
    + eexists. rewrite lookup_alter_eq, Hrs. split; [done|]. by apply prefix_app_r.
    + exists rs. by rewrite lookup_alter_ne.
  - mrun. intros title rs Hrs. wsimpl.
    assert (title ≠ Py.str_opt selected_class) as Hne.
    { intros ->. apply Hsheet. by exists rs. }
    exists rs. by rewrite !lookup_alter_ne, lookup_insert_ne.
Qed.

#[local] Hint Resolve submit_ledger_grows : respects.

Lemma bootstrap_defaults_ledger_grows l : respects ledger_grows (bootstrap_defaults l).
Proof.
  induction l as [|cls l IH]; cbn [bootstrap_defaults].
  - walk_with ledger_leaf.
  - unfold session_class_folders, create_folder, class_folders_setitem, drive_create.
    walk_with ledger_leaf.
Qed.

#[local] Hint Resolve bootstrap_defaults_ledger_grows : respects.

Lemma exec_ledger_grows (o : op) : respects ledger_grows (exec o).
Proof.
  destruct o; cbn [exec];
    unfold load_known_faces, load_class_folders, dump_class_folders, tab1,
      tab1_encodings, tab2, tab2_encodings, matcher, face_distance,
      add_class, remove_class, download_csv,
      get_class_data, create_folder, class_folders_setitem, dump_class_folders,
      session_class_folders, drive_create;
    walk_with ledger_leaf.
Qed.

(** X2. The attendance ledger is append-only: after any sequence of blocks
    every worksheet that existed still exists, and its earlier rows are
    still its first rows, unchanged. *)
Theorem ledger_only_grows (os : list op) (w : World) (title : string)
    (rs : list (list string)) :
  sheets w !! title = Some rs →
  ∃ rs', sheets (exec_all os w) !! title = Some rs' ∧ rs `prefix_of` rs'.
Proof. apply (exec_all_respects ledger_grows exec_ledger_grows). Qed.

(** *** Class names and whitespace *)

Lemma lstrip_cases (l : list N) :
  (Py.lstrip l = [] ∧ Forall (λ c, Py.isspace_cp c = true) l) ∨
  (∃ c r, Py.lstrip l = c :: r ∧ Py.isspace_cp c = false ∧
          ¬ Forall (λ c, Py.isspace_cp c = true) l).
Proof.
  induction l as [|a l IH]; [left; split; [done|constructor]|].
  cbn [Py.lstrip]. destruct (Py.isspace_cp a) eqn:Ha.
  - destruct IH as [[Hl Hw]|(b & r & Hl & Hb & Hw)].
    + left. split; [done|]. by constructor.
    + right. exists b, r. split; [done|]. split; [done|].
      intros Hall. apply Hw. by inversion Hall.
  - right. exists a, l. split; [done|]. split; [done|].
    intros Hall. inversion Hall; congruence.
Qed.

Lemma rstrip_keeps_head (c : N) (r : list N) :
  Py.isspace_cp c = false → Py.rstrip (c :: r) ≠ [].
Proof.
  intros Hc. cbn [Py.rstrip]. destruct (Py.rstrip r); [by rewrite Hc|done].
Qed.

Lemma strip_empty_iff (s : string) : Py.strip s = [] ↔ whitespace_only s.
Proof.
  split; [|apply strip_whitespace].
  unfold Py.strip, whitespace_only.
  destruct (lstrip_cases (Py.code_points s)) as [[_ Hw]|(c & r & -> & Hc & _)]; [done|].
  intros Hr. by apply rstrip_keeps_head in Hr.
Qed.

Lemma strip_nonempty (s : string) : ¬ whitespace_only s → Py.strip s ≠ [].
Proof. intros Hw. by rewrite strip_empty_iff. Qed.

(** *** Adding and removing a class *)

Lemma add_class_run (w : World) (new_class : string) (cf : gmap string string) :
  ¬ whitespace_only new_class →
  class_folders w = Some cf →
  add_class true new_class w =
    match cf !! new_class with
    | Some _ => (set_log (log w ++ [EvUI (st_warning "Class already exists.")]) w, Ok tt)
    | None =>
        let f := {| df_name := new_class;
                    df_mimeType := Some "application/vnd.google-apps.folder";
                    df_parents := [PARENT_FOLDER_ID]; df_media := None;
                    df_id := drive_new_id (drive w) |} in
        (set_log (log w ++ [EvDriveCreate f; EvPickleDump CLASS_FOLDERS_FILE;
                            EvUI (st_success ("Class '" +:+ new_class +:+ "' added."))])
           (set_class_folders_pkl (Some (<[new_class := df_id f]> cf))
              (set_class_folders (Some (<[new_class := df_id f]> cf))
                 (set_drive (drive w ++ [f]) w))),
         Ok tt)
    end.
Proof.
  intros Hw Hcf. unfold add_class.
  rewrite bool_decide_eq_false_2 by (by apply strip_nonempty).
  unfold session_class_folders. mrun. rewrite Hcf. mrun.
  destruct (cf !! new_class) as [id|] eqn:Hlook.
  - by rewrite bool_decide_eq_true_2.
  - rewrite bool_decide_eq_false_2 by (by intros [??]).
    unfold create_folder, drive_create, class_folders_setitem, dump_class_folders,
      session_class_folders.
    mrun. rewrite Hcf. mrun. cbv zeta. cbn [df_id]. by rewrite <- !app_assoc.
Qed.

(** X3. Adding a class whose name has a character other than whitespace and
    is not in the registry creates exactly one folder, named after the
    class, under the parent folder; the registry then maps the name, as
    typed, to the id of that folder, every other entry is as before, and the
    registry file is rewritten with the new registry before the success
    message.  Gallery and ledger are not touched. *)
Theorem add_class_creates_folder_and_entry (w : World) (new_class : string)
    (cf : gmap string string) :
  ¬ whitespace_only new_class →
  class_folders w = Some cf →
  cf !! new_class = None →
  ∃ (w' : World) (f : drive_file),
    add_class true new_class w = (w', Ok tt) ∧
    drive w' = drive w ++ [f] ∧
    is_class_folder f new_class (drive_new_id (drive w)) ∧
    class_folders w' = Some (<[new_class := df_id f]> cf) ∧
    class_folders_pkl w' = class_folders w' ∧
    new_events w w' =
      [EvDriveCreate f; EvPickleDump CLASS_FOLDERS_FILE;
       EvUI (st_success ("Class '" +:+ new_class +:+ "' added."))] ∧
    gallery_of w' = gallery_of w ∧ sheets w' = sheets w.
Proof.
  intros Hw Hcf Hnew. rewrite (add_class_run w new_class cf Hw Hcf), Hnew.
  eexists. eexists. split; [reflexivity|]. wsimpl.
  repeat split. by apply new_events_app.
Qed.

(** X4. Adding a class that the registry already has only shows the
    warning: no folder is created, the existing handle is kept, nothing is
    written. *)
Theorem add_class_existing_is_refused (w : World) (new_class id : string)
    (cf : gmap string string) :
  ¬ whitespace_only new_class →
  class_folders w = Some cf →
  cf !! new_class = Some id →
  ∃ w' : World,
    add_class true new_class w = (w', Ok tt) ∧
    new_events w w' = [EvUI (st_warning "Class already exists.")] ∧
    same_stores w w'.
Proof.
  intros Hw Hcf Hold. rewrite (add_class_run w new_class cf Hw Hcf), Hold.
  eexists. split; [reflexivity|]. split; [by apply new_events_app|].
  apply same_stores_set_log.
Qed.

Lemma remove_class_run (w : World) (k id : string) (cf : gmap string string) :
  class_folders w = Some cf →
  cf !! k = Some id →
  remove_class true (Some k) w =
    (set_log (log w ++ [EvPickleDump CLASS_FOLDERS_FILE;
                        EvUI (st_success ("Class '" +:+ k +:+ "' removed."))])
       (set_class_folders_pkl (Some (delete k cf))
          (set_class_folders (Some (delete k cf)) w)),
     Ok tt).
Proof.
  intros Hcf Hk. unfold remove_class, session_class_folders. mrun. rewrite Hcf. mrun.
  rewrite bool_decide_eq_false_2.
  2: { intros ->. by rewrite lookup_empty in Hk. }
  rewrite bool_decide_eq_true_2 by done.
  unfold dump_class_folders, session_class_folders. mrun. by rewrite <- !app_assoc.
Qed.

(** X5. Removing a class of the registry deletes its entry from the
    registry and from the registry file and keeps every other entry.  The
    folder of the class stays on Drive, and gallery and ledger are not
    touched. *)
Theorem remove_class_drops_entry_only (w : World) (k id : string)
    (cf : gmap string string) :
  class_folders w = Some cf →
  cf !! k = Some id →
  ∃ w' : World,
    remove_class true (Some k) w = (w', Ok tt) ∧
    class_folders w' = Some (delete k cf) ∧
    class_folders_pkl w' = Some (delete k cf) ∧
    (∀ other, other ≠ k → delete k cf !! other = cf !! other) ∧
    delete k cf !! k = None ∧
    drive w' = drive w ∧ sheets w' = sheets w ∧ gallery_of w' = gallery_of w.
Proof.
  intros Hcf Hk. rewrite (remove_class_run w k id cf Hcf Hk).
  eexists. split; [reflexivity|]. wsimpl. repeat split.
  - intros other Hother. by rewrite lookup_delete_ne.
  - by rewrite lookup_delete_eq.
Qed.

(** X6. Removing a class and adding it again does not bring back the old
    handle: a new folder is created next to the old one, which is still on
    Drive, and the registry maps the name to the id of the new folder. *)
Theorem remove_then_add_makes_new_folder (w : World) (k id : string)
    (cf : gmap string string) :
  ¬ whitespace_only k →
  class_folders w = Some cf →
  cf !! k = Some id →
  ∃ (w1 w2 : World) (f : drive_file),
    remove_class true (Some k) w = (w1, Ok tt) ∧
    add_class true k w1 = (w2, Ok tt) ∧
    drive w2 = drive w ++ [f] ∧
    is_class_folder f k (drive_new_id (drive w)) ∧
    class_folders w2 = Some (<[k := df_id f]> cf) ∧
    class_folders_pkl w2 = class_folders w2.
Proof.
  intros Hw Hcf Hk. rewrite (remove_class_run w k id cf Hcf Hk).
  eexists. eexists. eexists. split; [reflexivity|].
  rewrite (add_class_run _ k (delete k cf) Hw); [|reflexivity].
  rewrite lookup_delete_eq. cbv zeta.
  split; [reflexivity|]. wsimpl. cbn [df_id]. rewrite insert_delete_eq. repeat split.
Qed.

(** *** What the bootstrap creates *)

Lemma bootstrap_defaults_spec (l : list string) (w : World) (cf : gmap string string) :
  class_folders w = Some cf →
  ∃ fs : list drive_file,
    bootstrap_defaults l w =
      (set_log (log w ++ map EvDriveCreate fs)
         (set_class_folders (Some (with_folders cf fs))
            (set_drive (drive w ++ fs) w)),
       Ok tt) ∧
    map df_name fs = missing_names l (dom cf) ∧
    Forall (λ f, is_class_folder f (df_name f) (df_id f)) fs.
Proof.
  revert w cf. induction l as [|cls l IH]; intros w cf Hcf.
  - exists []. split; [|done]. cbn. rewrite !app_nil_r. destruct w. cbn in *. by subst.
  - cbn [bootstrap_defaults missing_names]. unfold session_class_folders.
    mrun. rewrite Hcf. mrun.
    destruct (cf !! cls) as [id|] eqn:Hlook.
    + rewrite bool_decide_eq_true_2 by done.
      rewrite bool_decide_eq_true_2 by (apply elem_of_dom; done).
      mrun. apply (IH w cf Hcf).
    + rewrite bool_decide_eq_false_2 by (by intros [??]).
      rewrite bool_decide_eq_false_2 by (by rewrite not_elem_of_dom).
      unfold create_folder, drive_create, class_folders_setitem, session_class_folders.
      mrun. rewrite Hcf. mrun.
      match goal with
      | |- ∃ _, bootstrap_defaults l ?w1 = _ ∧ _ =>
          destruct (IH w1 (<[cls := drive_new_id (drive w)]> cf) eq_refl)
            as (fs & Hrun & Hnames & Hfolders)
      end.
      exists (class_folder_for (drive w) cls :: fs). rewrite Hrun. wsimpl.
      split; [|split].
      * cbn [map with_folders foldl class_folder_for df_name df_id].
        unfold with_folders. by rewrite <- !app_assoc.
      * cbn [map class_folder_for df_name]. f_equal.
        by rewrite Hnames, dom_insert_L.
      * constructor; [|done]. repeat split.
Qed.

Lemma missing_names_spec (l : list string) (seen : gset string) (c : string) :
  c ∈ missing_names l seen ↔ c ∈ l ∧ c ∉ seen.
Proof.
  revert seen. induction l as [|a l IH]; intros seen; cbn [missing_names].
  - split; [intros Hc; inversion Hc|intros [Hc _]; inversion Hc].
  - case_bool_decide as Ha.
    + rewrite IH, elem_of_cons. split.
      * intros [Hc Hn]. split; [by right|done].
      * intros [[->|Hc] Hn]; done.
    + rewrite elem_of_cons, IH, elem_of_cons, elem_of_union, elem_of_singleton. split.
      * intros [->|[Hc Hn]].
        -- split; [by left|done].
        -- split; [by right|]. intros Hs. apply Hn. by right.
      * intros [[->|Hc] Hn]; [by left|].
        destruct (decide (c = a)) as [->|Hne]; [by left|right].
        split; [done|]. by intros [?|?].
Qed.

Lemma missing_names_NoDup (l : list string) (seen : gset string) :
  NoDup (missing_names l seen).
Proof.
  revert seen. induction l as [|a l IH]; intros seen; cbn [missing_names].
  - constructor.
  - case_bool_decide; [apply IH|]. constructor; [|apply IH].
    rewrite missing_names_spec. intros [_ Hn]. apply Hn.
    apply elem_of_union. left. by apply elem_of_singleton.
Qed.

Lemma with_folders_lookup_other (cf : gmap string string) (fs : list drive_file)
    (k : string) :
  k ∉ map df_name fs → with_folders cf fs !! k = cf !! k.
Proof.
  revert cf. induction fs as [|g fs IH]; intros cf Hk; [done|].
  cbn [map] in Hk. apply not_elem_of_cons in Hk as [Hne Hk].
  unfold with_folders in *. cbn [foldl]. rewrite IH by done.
  by rewrite lookup_insert_ne.
Qed.

Lemma with_folders_lookup_new (cf : gmap string string) (fs : list drive_file)
    (f : drive_file) :
  NoDup (map df_name fs) → f ∈ fs → with_folders cf fs !! df_name f = Some (df_id f).
Proof.
  revert cf. induction fs as [|g fs IH]; intros cf Hnd Hf; [inversion Hf|].
  cbn [map] in Hnd. apply NoDup_cons in Hnd as [Hg Hnd].
  unfold with_folders in *. cbn [foldl].
  apply elem_of_cons in Hf as [->|Hin]; [|by apply IH].
  fold (with_folders (<[df_name g := df_id g]> cf) fs).
  rewrite with_folders_lookup_other by done. apply lookup_insert_eq.
Qed.

Lemma dom_with_folders (cf : gmap string string) (fs : list drive_file) :
  dom (with_folders cf fs) = dom cf ∪ list_to_set (map df_name fs).
Proof.
  revert cf. induction fs as [|g fs IH]; intros cf.
  - cbn. by rewrite (right_id_L ∅ (∪)).
  - unfold with_folders in *. cbn [foldl map list_to_set].
    rewrite IH, dom_insert_L.
    by rewrite (comm_L (∪) {[df_name g]} (dom cf)), <- (assoc_L (∪)).
Qed.

Lemma load_class_folders_run (w : World) :
  class_folders w = None →
  ∃ fs : list drive_file,
    load_class_folders w =
      (set_log (log w ++ map EvDriveCreate fs ++ [EvPickleDump CLASS_FOLDERS_FILE])
         (set_class_folders_pkl
            (Some (with_folders (default ∅ (class_folders_pkl w)) fs))
            (set_class_folders
               (Some (with_folders (default ∅ (class_folders_pkl w)) fs))
               (set_drive (drive w ++ fs) w))),
       Ok tt) ∧
    map df_name fs
      = missing_names DEFAULT_CLASS_LIST (dom (default ∅ (class_folders_pkl w))) ∧
    Forall (λ f, is_class_folder f (df_name f) (df_id f)) fs.
Proof.
  intros Hnone. unfold load_class_folders. mrun. rewrite Hnone. mrun.
  assert (match class_folders_pkl w with Some saved => saved | None => ∅ end
          = default ∅ (class_folders_pkl w)) as -> by (by destruct (class_folders_pkl w)).
  match goal with
  | |- context [bootstrap_defaults _ ?w0] =>
      destruct (bootstrap_defaults_spec DEFAULT_CLASS_LIST w0
                  (default ∅ (class_folders_pkl w)) eq_refl)
        as (fs & Hrun & Hnames & Hfolders)
  end.
  rewrite Hrun. unfold dump_class_folders, session_class_folders. mrun.
  exists fs. split; [|done]. by rewrite <- !app_assoc.
Qed.

(** X7. In a new session the bootstrap starts from the registry file (or
    from an empty registry when there is none) and creates one folder for
    each default class that is not in it, in the order of the default list,
    and none for the others.  Afterwards the registry holds the saved
    entries unchanged plus one entry per default class, and the file holds
    the same registry. *)
Theorem bootstrap_creates_missing_defaults (w : World) (saved : gmap string string) :
  class_folders w = None →
  saved = default ∅ (class_folders_pkl w) →
  ∃ (w' : World) (fs : list drive_file),
    load_class_folders w = (w', Ok tt) ∧
    drive w' = drive w ++ fs ∧
    map df_name fs = missing_names DEFAULT_CLASS_LIST (dom saved) ∧
    Forall (λ f, is_class_folder f (df_name f) (df_id f)) fs ∧
    class_folders w' = Some (with_folders saved fs) ∧
    class_folders_pkl w' = Some (with_folders saved fs) ∧
    dom (with_folders saved fs) = dom saved ∪ list_to_set DEFAULT_CLASS_LIST ∧
    (∀ k v, saved !! k = Some v → with_folders saved fs !! k = Some v) ∧
    new_events w w' = map EvDriveCreate fs ++ [EvPickleDump CLASS_FOLDERS_FILE].
Proof.
  intros Hnone ->.
  destruct (load_class_folders_run w Hnone) as (fs & Hrun & Hnames & Hfolders).
  rewrite Hrun. eexists. exists fs. split; [reflexivity|]. wsimpl.
  split; [done|]. split; [done|]. split; [done|]. split; [done|]. split; [done|].
  split; [|split].
  - rewrite dom_with_folders, Hnames. apply set_eq. intros c.
    rewrite !elem_of_union, !elem_of_list_to_set, missing_names_spec. split.
    + intros [Hd|[Hl _]]; [by left|by right].
    + intros [Hd|Hl]; [by left|].
      destruct (decide (c ∈ dom (default ∅ (class_folders_pkl w)))); [by left|by right].
  - intros k v Hk. rewrite with_folders_lookup_other; [done|].
    rewrite Hnames, missing_names_spec. intros [_ Hnot]. apply Hnot.
    apply elem_of_dom. by exists v.
  - by apply new_events_app.
Qed.

(** X8. Removing a default class lasts only for the session: the next
    session's bootstrap finds it missing from the file, creates a new folder
    for it and puts it back into the registry with that folder's id. *)
Theorem removed_default_returns_next_session (w : World) (k id : string)
    (cf : gmap string string) :
  class_folders w = Some cf →
  cf !! k = Some id →
  k ∈ DEFAULT_CLASS_LIST →
  ∃ (w1 w2 : World) (f : drive_file) (cf2 : gmap string string),
    remove_class true (Some k) w = (w1, Ok tt) ∧
    class_folders_pkl w1 = Some (delete k cf) ∧
    load_class_folders (set_class_folders None w1) = (w2, Ok tt) ∧
    EvDriveCreate f ∈ new_events w1 w2 ∧
    is_class_folder f k (df_id f) ∧
    class_folders w2 = Some cf2 ∧
    cf2 !! k = Some (df_id f).
Proof.
  intros Hcf Hk Hdefault. pose proof (remove_class_run w k id cf Hcf Hk) as Hrem.
  set (w1 := set_log _ _) in Hrem.
  destruct (load_class_folders_run (set_class_folders None w1) eq_refl)
    as (fs & Hrun & Hnames & Hfolders).
  assert (class_folders_pkl (set_class_folders None w1) = Some (delete k cf)) as Hpkl
    by reflexivity.
  rewrite Hpkl in Hrun, Hnames.
  change (default ∅ (Some (delete k cf))) with (delete k cf) in *.
  assert (k ∈ map df_name fs) as Hin.
  { rewrite Hnames, missing_names_spec. split; [done|].
    rewrite not_elem_of_dom. apply lookup_delete_eq. }
  apply list_elem_of_fmap in Hin as (f & -> & Hf).
  exists w1. eexists. exists f. eexists. split; [exact Hrem|]. split; [reflexivity|].
  split; [exact Hrun|]. split; [|split; [|split; [reflexivity|]]].
  - rewrite (new_events_app _ _ (map EvDriveCreate fs ++ [EvPickleDump CLASS_FOLDERS_FILE]))
      by done.
    apply elem_of_app. left. apply list_elem_of_fmap. by exists f.
  - by apply (proj1 (Forall_forall _ _) Hfolders).
  - apply with_folders_lookup_new; [|done]. rewrite Hnames. apply missing_names_NoDup.
Qed.

(** *** The registry, its file and Drive *)

Ltac registry_leaf := unfold keeps_registry, registry_of; wsimpl; done.

Lemma neutral_keeps_registry (o : op) :
  match o with
  | LoadClassFolders | AddClass _ _ | RemoveClass _ _ => True
  | _ => respects keeps_registry (exec o)
  end.
Proof.
  destruct o; cbn [exec]; try exact I;
    unfold load_known_faces, tab1, tab1_encodings, tab2, tab2_encodings, matcher,
      face_distance, submit, add_worksheet, append_row, download_csv, get_class_data,
      drive_create;
    walk_with registry_leaf.
Qed.

Lemma registry_backed_mono (cf : gmap string string) (d d' : list drive_file) :
  registry_backed cf d → d `prefix_of` d' → registry_backed cf d'.
Proof.
  intros Hb [d2 ->] name id Hl. destruct (Hb name id Hl) as (f & Hf & Hc).
  exists f. split; [|done]. apply elem_of_app. by left.
Qed.

Lemma registry_backed_insert (cf : gmap string string) (d : list drive_file)
    (f : drive_file) (name id : string) :
  registry_backed cf d → is_class_folder f name id →
  registry_backed (<[name := id]> cf) (d ++ [f]).
Proof.
  intros Hb Hf name' id' Hl. destruct (decide (name = name')) as [<-|Hne].
  - rewrite lookup_insert_eq in Hl. injection Hl as <-.
    exists f. split; [|done]. apply elem_of_app. right. by apply list_elem_of_singleton.
  - rewrite lookup_insert_ne in Hl by done.
    apply (registry_backed_mono cf d); [done| |done]. by apply prefix_app_r.
Qed.

Lemma registry_backed_delete (cf : gmap string string) (d : list drive_file) (k : string) :
  registry_backed cf d → registry_backed (delete k cf) d.
Proof.
  intros Hb name id Hl. apply Hb. destruct (decide (k = name)) as [->|Hne].
  - by rewrite lookup_delete_eq in Hl.
  - by rewrite lookup_delete_ne in Hl.
Qed.

Lemma with_folders_backed (fs : list drive_file) (cf : gmap string string)
    (d : list drive_file) :
  registry_backed cf d →
  Forall (λ f, is_class_folder f (df_name f) (df_id f)) fs →
  registry_backed (with_folders cf fs) (d ++ fs).
Proof.
  revert cf d. induction fs as [|g fs IH]; intros cf d Hb Hfs.
  - by rewrite app_nil_r.
  - apply Forall_cons in Hfs as [Hg Hfs]. unfold with_folders. cbn [foldl].
    rewrite (cons_middle g d fs), app_assoc. apply IH; [|done].
    by apply registry_backed_insert.
Qed.

Lemma load_class_folders_step (w : World) : registry_step w (load_class_folders w).1.
Proof.
  destruct (class_folders w) as [cf|] eqn:Hcf.
  - left. unfold load_class_folders. mrun. rewrite Hcf. repeat split.
  - right. destruct (load_class_folders_run w Hcf) as (fs & -> & Hnames & Hfolders).
    wsimpl. eexists. split; [reflexivity|]. split; [reflexivity|].
    split; [by apply prefix_app_r|]. intros [_ Hfile].
    apply with_folders_backed; [|done].
    destruct (class_folders_pkl w) as [saved|]; cbn [from_option]; [by apply Hfile|].
    intros name id Hl. by rewrite lookup_empty in Hl.
Qed.

Lemma add_class_step (pressed : bool) (new_class : string) (w : World) :
  registry_step w (add_class pressed new_class w).1.
Proof.
  destruct pressed; [|left; repeat split].
  destruct (decide (Py.strip new_class = [])) as [Hstrip|Hstrip].
  { left. unfold add_class. rewrite bool_decide_eq_true_2 by done. repeat split. }
  assert (¬ whitespace_only new_class) as Hw by (by rewrite <- strip_empty_iff).
  destruct (class_folders w) as [cf|] eqn:Hcf.
  2: { left. unfold add_class, session_class_folders.
       rewrite bool_decide_eq_false_2 by done. mrun. rewrite Hcf. repeat split. }
  rewrite (add_class_run w new_class cf Hw Hcf).
  destruct (cf !! new_class) as [id|] eqn:Hlook; [left; repeat split|].
  right. cbv zeta. wsimpl. cbn [df_id]. eexists. split; [reflexivity|].
  split; [reflexivity|]. split; [by apply prefix_app_r|]. intros [Hsess _].
  apply registry_backed_insert; [by apply Hsess|]. repeat split.
Qed.

Lemma remove_class_step (pressed : bool) (class_to_remove : option string) (w : World) :
  registry_step w (remove_class pressed class_to_remove w).1.
Proof.
  destruct (class_folders w) as [cf|] eqn:Hcf.
  2: { left. unfold remove_class, session_class_folders. mrun. rewrite Hcf. repeat split. }
  destruct (decide (cf = ∅)) as [Hempty|Hne].
  { left. unfold remove_class, session_class_folders. mrun. rewrite Hcf. mrun.
    rewrite bool_decide_eq_true_2 by done. repeat split. }
  destruct pressed.
  2: { left. unfold remove_class, session_class_folders. mrun. rewrite Hcf. mrun.
       rewrite bool_decide_eq_false_2 by done. repeat split. }
  destruct (class_to_remove ≫= (cf !!.)) as [id|] eqn:Hk.
  - destruct class_to_remove as [k|]; [|done]. cbn in Hk.
    rewrite (remove_class_run w k id cf Hcf Hk). right. wsimpl.
    eexists. split; [reflexivity|]. split; [reflexivity|]. split; [done|].
    intros [Hsess _]. apply registry_backed_delete. by apply Hsess.
  - left. unfold remove_class, session_class_folders. mrun. rewrite Hcf. mrun.
    rewrite bool_decide_eq_false_2 by done.
    destruct class_to_remove as [k|]; cbn in Hk |- *.
    + rewrite bool_decide_eq_false_2 by (rewrite Hk; by intros [??]). repeat split.
    + repeat split.
Qed.

Lemma registry_step_invariants (w w' : World) :
  registry_step w w' →
  (registry_synced w → registry_synced w') ∧
  (registry_backed_world w → registry_backed_world w').
Proof.
  intros [(_ & _ & _ & Hs & Hf & Hd & _)|(cf' & Hs & Hf & Hd & Hb)].
  - unfold registry_synced, registry_backed_world. by rewrite Hs, Hf, Hd.
  - split.
    + intros _ cf Hcf. congruence.
    + intros Hw. specialize (Hb Hw).
      split; intros cf Hcf; [rewrite Hs in Hcf|rewrite Hf in Hcf];
        by injection Hcf as <-.
Qed.

Lemma exec_registry_invariants (o : op) (w : World) :
  (registry_synced w → registry_synced (exec o w).1) ∧
  (registry_backed_world w → registry_backed_world (exec o w).1).
Proof.
  assert (respects keeps_registry (exec o) →
          (registry_synced w → registry_synced (exec o w).1) ∧
          (registry_backed_world w → registry_backed_world (exec o w).1)) as Hneutral.
  { intros Hk. specialize (Hk w). unfold keeps_registry, registry_of in Hk.
    injection Hk as Hs Hf. pose proof (exec_drive_grows o w) as Hd.
    unfold registry_synced, registry_backed_world. rewrite Hs, Hf. split; [done|].
    intros [Hb1 Hb2]. split; intros cf Hcf.
    - eapply registry_backed_mono; [by apply Hb1|exact Hd].
    - eapply registry_backed_mono; [by apply Hb2|exact Hd]. }
  pose proof (neutral_keeps_registry o) as Hn.
  destruct o; try (by apply Hneutral); cbn [exec]; apply registry_step_invariants.
  - apply load_class_folders_step.
  - apply add_class_step.
  - apply remove_class_step.
Qed.

Lemma exec_all_registry_invariants (os : list op) (w : World) :
  (registry_synced w → registry_synced (exec_all os w)) ∧
  (registry_backed_world w → registry_backed_world (exec_all os w)).
Proof.
  revert w. induction os as [|o os IH]; intros w; [done|].
  cbn [exec_all]. destruct (exec_registry_invariants o w) as [Hs Hb].
  destruct (IH (exec o w).1) as [Hs' Hb']. split; auto.
Qed.

(** X9. The registry is written through: if the registry file agrees with
    the session when a sequence of blocks starts (as it does in a session
    that has not loaded the registry yet), it agrees after every block,
    whatever was added or removed. *)
Theorem registry_file_follows_session (os : list op) (w : World)
    (cf : gmap string string) :
  registry_synced w →
  class_folders (exec_all os w) = Some cf →
  class_folders_pkl (exec_all os w) = Some cf.
Proof.
  intros Hs. by apply (proj1 (exec_all_registry_invariants os w) Hs).
Qed.

(** X10. Handles stay backed: if every handle of the registry, in the
    session and in the file, is the id of a class folder on Drive with the
    class's name, this is still so after any sequence of blocks. *)
Theorem registry_handles_stay_backed (os : list op) (w : World)
    (cf : gmap string string) (name id : string) :
  registry_backed_world w →
  class_folders (exec_all os w) = Some cf →
  cf !! name = Some id →
  ∃ f, f ∈ drive (exec_all os w) ∧ is_class_folder f name id.
Proof.
  intros Hb Hcf Hl.
  destruct (proj2 (exec_all_registry_invariants os w) Hb) as [Hsess _].
  by apply (Hsess cf Hcf).
Qed.

(** *** Registration *)

Lemma not_false_ne (s : string) : Py.not_ s = false → s ≠ "".
Proof. by destruct s. Qed.

(** X11. A registration form that is not valid for any picture changes no
    store: a submitted one gets exactly one error message, one that was not
    submitted gets nothing at all. *)
Theorem invalid_registration_changes_nothing (f : register_form) (w : World) :
  (∀ img, ¬ valid_registration f img) →
  ∃ w' : World,
    tab1 f w = (w', Ok tt) ∧
    same_stores w w' ∧
    (reg_submit f = true → ∃ msg, new_events w w' = [EvUI (st_error msg)]) ∧
    (reg_submit f = false → w' = w).
Proof.
  intros Hinvalid. unfold tab1. destruct (reg_submit f) eqn:Hsubmit.
  2: { exists w. split; [reflexivity|]. split; [repeat split|].
       split; [intros ?; discriminate|done]. }
  assert (∀ msg, ∃ w' : World,
            st (st_error msg) w = (w', Ok tt) ∧ same_stores w w' ∧
            (true = true → ∃ msg, new_events w w' = [EvUI (st_error msg)]) ∧
            (true = false → w' = w)) as Herr'.
  { intros msg. eexists. split; [reflexivity|]. split; [apply same_stores_set_log|].
    split; [|intros ?; discriminate].
    intros _. exists msg. by apply new_events_app. }
  destruct (Py.not_ (reg_name f)) eqn:Hn; [apply Herr'|].
  destruct (Py.not_ (reg_id f)) eqn:Hi; [apply Herr'|].
  destruct (Py.not_ (reg_email f)) eqn:He; [apply Herr'|].
  destruct (Py.not_ (reg_phone f)) eqn:Hp; [apply Herr'|].
  cbn [orb]. destruct (reg_img f) as [img|] eqn:Himg; [|apply Herr'].
  destruct (Py.contains "@" (reg_email f)) eqn:Hat; [|apply Herr'].
  destruct (Py.contains "." (reg_email f)) eqn:Hdot; [|apply Herr'].
  cbn [negb orb]. destruct (Py.isdigit (reg_phone f)) eqn:Hdig; [|apply Herr'].
  cbn [negb orb].
  unfold Py.len.
  destruct (Nat.ltb_spec (length (Py.code_points (reg_phone f))) 10) as [|Hlo];
    [apply Herr'|].
  destruct (Nat.ltb_spec 15 (length (Py.code_points (reg_phone f)))) as [|Hhi];
    [apply Herr'|].
  cbn [orb]. destruct (face_encodings img) as [|e rest] eqn:Henc; [apply Herr'|].
  exfalso. apply (Hinvalid img). unfold valid_registration.
  apply not_false_ne in Hn, Hi, He, Hp. apply contains_spec in Hat, Hdot.
  apply isdigit_spec in Hdig as [_ Hdig]. rewrite Henc. repeat split; try done; lia.
Qed.

Lemma tab1_encodings_run (f : register_form) (e : embedding) (rest : list embedding)
    (w : World) :
  tab1_encodings f (e :: rest) w =
    (set_log (log w ++ [EvPickleDump "known_faces.pkl";
                        EvUI (st_success ("✅ " +:+ reg_name f +:+ " registered successfully!"))])
       (set_known_faces_pkl
          (Some (known_faces w ++ [e], known_metadata w ++ [new_metadata f]))
          (set_gallery (known_faces w ++ [e]) (known_metadata w ++ [new_metadata f]) w)),
     Ok tt).
Proof. unfold tab1_encodings. mrun. by rewrite <- !app_assoc. Qed.

(** X12. Registration does not look for an earlier entry of the same
    student: submitting the same valid form twice leaves two equal entries
    at the end of the gallery, and the file holds both. *)
Theorem registering_twice_duplicates (f : register_form) (img : image) (w : World) :
  valid_registration f img →
  ∃ (e : embedding) (w1 w2 : World),
    tab1 f w = (w1, Ok tt) ∧
    tab1 f w1 = (w2, Ok tt) ∧
    known_faces w2 = known_faces w ++ [e; e] ∧
    known_metadata w2 = known_metadata w ++ [new_metadata f; new_metadata f] ∧
    known_faces_pkl w2 = Some (known_faces w2, known_metadata w2).
Proof.
  intros Hv. pose proof Hv as (_ & _ & _ & _ & _ & _ & _ & _ & _ & _ & Hface).
  rewrite (tab1_valid f img w Hv).
  destruct (face_encodings img) as [|e rest] eqn:Henc; [done|].
  exists e. eexists. eexists. split; [apply tab1_encodings_run|].
  rewrite (tab1_valid f img _ Hv), Henc. split; [apply tab1_encodings_run|].
  wsimpl. by rewrite <- !app_assoc.
Qed.

(** *** The gallery file follows the gallery *)

Lemma gallery_synced_of (w w' : World) :
  gallery_of w' = gallery_of w → gallery_synced w → gallery_synced w'.
Proof.
  unfold gallery_of, gallery_synced. intros [= Hf Hm Hp]. by rewrite Hf, Hm, Hp.
Qed.

Lemma load_known_faces_synced (w : World) : gallery_synced (load_known_faces w).1.
Proof.
  unfold load_known_faces, gallery_synced. mrun.
  destruct (known_faces_pkl w) as [[fs ms]|] eqn:Hpkl; mrun; by rewrite Hpkl.
Qed.

Lemma tab1_synced (f : register_form) (w : World) :
  gallery_synced w → gallery_synced (tab1 f w).1.
Proof.
  intros Hs. unfold tab1.
  repeat match goal with
         | |- context [if ?b then _ else _] => destruct b
         | |- context [match reg_img f with _ => _ end] => destruct (reg_img f)
         end; try done.
  destruct (face_encodings _) as [|e rest]; [done|].
  rewrite tab1_encodings_run. unfold gallery_synced. by wsimpl.
Qed.

Lemma exec_synced (o : op) (w : World) : gallery_synced w → gallery_synced (exec o w).1.
Proof.
  intros Hs. destruct o; cbn [exec].
  - apply load_known_faces_synced.
  - by apply (gallery_synced_of w); [apply keeps_load_class_folders|].
  - by apply tab1_synced.
  - by apply (gallery_synced_of w); [apply keeps_tab2|].
  - by apply (gallery_synced_of w); [apply keeps_add_class|].
  - by apply (gallery_synced_of w); [apply keeps_remove_class|].
  - by apply (gallery_synced_of w); [apply keeps_download_csv|].
Qed.

Lemma exec_all_synced (os : list op) (w : World) :
  gallery_synced w → gallery_synced (exec_all os w).
Proof.
  revert w. induction os as [|o os IH]; intros w Hs; [done|].
  cbn [exec_all]. by apply IH, exec_synced.
Qed.

(** X13. The gallery is written through: once a run has loaded it, whatever
    blocks follow, the gallery file holds exactly the two lists in memory
    (or is missing while both are empty), so loading it again gives the
    same gallery back. *)
Theorem gallery_file_follows_gallery (os : list op) (w : World) :
  gallery_synced (exec_all (LoadKnownFaces :: os) w) ∧
  known_faces (load_known_faces (exec_all (LoadKnownFaces :: os) w)).1
    = known_faces (exec_all (LoadKnownFaces :: os) w) ∧
  known_metadata (load_known_faces (exec_all (LoadKnownFaces :: os) w)).1
    = known_metadata (exec_all (LoadKnownFaces :: os) w).
Proof.
  cbn [exec_all exec].
  pose proof (exec_all_synced os _ (load_known_faces_synced w)) as Hs.
  generalize dependent (exec_all os (load_known_faces w).1). intros w' Hs.
  split; [done|]. unfold gallery_synced in Hs. unfold load_known_faces. mrun.
  destruct (known_faces_pkl w') as [saved|]; mrun.
  - by rewrite Hs.
  - by destruct Hs as [-> ->].
Qed.

(** *** Check-in *)

Lemma alter_as_insert {A : Type} (f : A → A) (m : gmap string A) (k : string) (old : A) :
  m !! k = Some old → alter f k m = <[k := f old]> m.
Proof.
  intros Hk. apply map_eq. intros j. destruct (decide (k = j)) as [<-|Hne].
  - by rewrite lookup_alter_eq, lookup_insert_eq, Hk.
  - by rewrite lookup_alter_ne, lookup_insert_ne.
Qed.

Lemma submit_run (w : World) (matched cf : gmap string string)
    (cls folder name student_id : string) (img : image) (timestamp : string) :
  matched !! "name" = Some name →
  matched !! "student_id" = Some student_id →
  class_folders w = Some cf →
  cf !! cls = Some folder →
  submit matched (Some cls) img timestamp w =
    let upload := evidence_upload (drive w) name student_id cls timestamp folder img in
    let row := present_row timestamp name student_id (default "" (matched !! "email"))
                 (default "" (matched !! "phone")) cls (df_id upload) in
    (set_log
       (log w ++ [EvDriveCreate upload] ++
        match sheets w !! cls with
        | Some _ => []
        | None => [EvAddWorksheet cls; EvAppendRow cls HEADER_ROW]
        end ++
        [EvAppendRow cls row;
         EvUI (st_success ("✅ Attendance submitted for " +:+ name +:+ " ("
                           +:+ student_id +:+ ")"))])
       (set_sheets
          (<[cls := match sheets w !! cls with
                    | Some old => old ++ [row]
                    | None => [HEADER_ROW; row]
                    end]> (sheets w))
          (set_drive (drive w ++ [upload]) w)),
     Ok tt).
Proof.
  intros Hname Hsid Hcf Hcls.
  unfold submit, session_class_folders, drive_create, add_worksheet, append_row.
  mrun. rewrite Hname, Hsid. mrun. rewrite Hcf. mrun. rewrite Hcls.
  cbn [Py.str_opt]. mrun. cbv zeta. unfold evidence_upload, present_row. cbn [df_id].
  destruct (sheets w !! cls) as [old|] eqn:Hsheet.
  - rewrite bool_decide_eq_true_2 by done. mrun.
    rewrite (alter_as_insert _ _ _ old Hsheet). by rewrite <- !app_assoc.
  - rewrite bool_decide_eq_false_2 by (by intros [??]). mrun.
    rewrite (alter_as_insert _ (<[cls := []]> (sheets w)) cls [])
      by apply lookup_insert_eq.
    rewrite (alter_as_insert _ _ cls ([] ++ [HEADER_ROW])) by apply lookup_insert_eq.
    rewrite !insert_insert_eq. by rewrite <- !app_assoc.
Qed.

Lemma tab2_accepted (w w0 : World) (q : embedding) (rest : list embedding)
    (matched : gmap string string) (selected_class : option string) (img : image)
    (timestamp : string) :
  known_faces w ≠ [] →
  matcher q w = (w0, Ok (Some matched)) →
  tab2_encodings selected_class img timestamp (q :: rest) w
    = submit matched selected_class img timestamp w0.
Proof.
  intros Hne Hm. unfold tab2_encodings. cbv beta iota delta [mbind M_bind get].
  destruct (known_faces w) eqn:Hk; [done|]. by rewrite Hm.
Qed.

(** X14. An accepted face without a class of the registry (no class to
    select because the registry is empty, or a class that has been removed)
    makes the block raise [KeyError] before anything is uploaded: the
    distance computation is the only trace, and no store changes. *)
Theorem accepted_face_without_class_raises (w w0 : World) (q : embedding)
    (rest : list embedding) (matched cf : gmap string string)
    (selected_class : option string) (name student_id : string) (img : image)
    (timestamp : string) :
  known_faces w ≠ [] →
  matcher q w = (w0, Ok (Some matched)) →
  matched !! "name" = Some name →
  matched !! "student_id" = Some student_id →
  class_folders w = Some cf →
  selected_class ≫= (cf !!.) = None →
  tab2_encodings selected_class img timestamp (q :: rest) w
    = (w0, Raise (KeyError selected_class)) ∧
  same_stores w w0 ∧
  new_events w w0 = [EvFaceDistance (length (known_faces w))].
Proof.
  intros Hne Hm Hname Hsid Hcf Hcls. rewrite (tab2_accepted w w0 q rest matched) by done.
  pose proof (matcher_world _ _ _ _ Hm) as ->.
  split; [|split; [apply same_stores_set_log|by apply new_events_app]].
  unfold submit, session_class_folders. mrun. rewrite Hname, Hsid. mrun.
  rewrite Hcf. mrun. destruct selected_class as [cls|]; [|done].
  cbn in Hcls. by rewrite Hcls.
Qed.

Lemma replace_removes (a b : ascii) (s : string) :
  a ≠ b → a ∉ chars (Py.replace a b s).
Proof.
  intros Hab. induction s as [|c s IH]; cbn; [by intros Hin; inversion Hin|].
  apply not_elem_of_cons. split; [|done].
  destruct (Ascii.eqb_spec c a) as [->|Hne]; congruence.
Qed.

(** X15. An accepted check-in uploads exactly one object: the picture that
    was taken, into the folder that the registry has for the class, under a
    name made of the matched name, the student id, the class and the
    timestamp with its colons replaced.  Gallery and registry are not
    touched. *)
Theorem checkin_photo_goes_to_class_folder (w w0 : World) (q : embedding)
    (rest : list embedding) (matched cf : gmap string string)
    (cls folder name student_id : string) (img : image) (timestamp : string) :
  known_faces w ≠ [] →
  matcher q w = (w0, Ok (Some matched)) →
  matched !! "name" = Some name →
  matched !! "student_id" = Some student_id →
  class_folders w = Some cf →
  cf !! cls = Some folder →
  ∃ (w' : World) (upload : drive_file),
    tab2_encodings (Some cls) img timestamp (q :: rest) w = (w', Ok tt) ∧
    drive w' = drive w ++ [upload] ∧
    df_parents upload = [folder] ∧
    df_media upload = Some img ∧
    df_name upload = (name +:+ "_" +:+ student_id +:+ "_" +:+ cls +:+ "_"
                      +:+ Py.replace ":" "-" timestamp +:+ ".jpg") ∧
    (":"%char ∉ chars (Py.replace ":" "-" timestamp)) ∧
    df_id upload = drive_new_id (drive w) ∧
    gallery_of w' = gallery_of w ∧ registry_of w' = registry_of w.
Proof.
  intros Hne Hm Hname Hsid Hcf Hcls. rewrite (tab2_accepted w w0 q rest matched) by done.
  pose proof (matcher_world _ _ _ _ Hm) as ->.
  rewrite (submit_run _ matched cf cls folder name student_id) by done.
  cbv zeta. eexists. eexists. split; [reflexivity|]. wsimpl.
  repeat split. by apply replace_removes.
Qed.

(** *** From registration to the ledger *)

Lemma matcher_last_entry (w : World) (q e : embedding) (faces : list embedding)
    (metas : list (gmap string string)) (matched : gmap string string) :
  known_faces w = faces ++ [e] →
  known_metadata w = metas ++ [matched] →
  length faces = length metas →
  (distance e q < 0.45)%Q →
  (∀ face, face ∈ faces → (distance e q < distance face q)%Q) →
  matcher q w =
    (set_log (log w ++ [EvFaceDistance (length (known_faces w))]) w, Ok (Some matched)).
Proof.
  intros Hfaces Hmetas Hlen Hnear Hfar.
  assert (distances_to w q = map (λ face, distance face q) faces ++ [distance e q])
    as Hds by (unfold distances_to; by rewrite Hfaces, map_app).
  assert (is_minimum (distance e q) (distances_to w q)) as Hism.
  { rewrite Hds. split; [apply elem_of_app; right; by apply list_elem_of_singleton|].
    intros x Hx. apply elem_of_app in Hx as [Hx|Hx].
    - apply list_elem_of_fmap in Hx as (face & -> & Hface).
      by apply Qlt_le_weak, Hfar.
    - apply list_elem_of_singleton in Hx as ->. apply Qle_refl. }
  assert (first_at (distances_to w q) (distance e q) (length faces)) as Hfirst.
  { rewrite Hds. split.
    - exists (distance e q). split; [|done].
      rewrite lookup_app_r by (by rewrite length_map).
      by rewrite length_map, Nat.sub_diag.
    - intros j z Hj Hz Heq. rewrite lookup_app_l in Hz by (by rewrite length_map).
      rewrite list_lookup_fmap in Hz.
      destruct (faces !! j) as [face|] eqn:Hface; [|done]. injection Hz as <-.
      apply (Qlt_irrefl (distance e q)). rewrite <- Heq at 2.
      apply Hfar. by eapply list_elem_of_lookup_2. }
  assert (distances_to w q ≠ []) as Hne by (rewrite Hds; by destruct (map _ faces)).
  destruct (min_spec _ Hne) as (m & Hmin & Hism').
  pose proof (is_minimum_unique _ _ _ Hism' Hism) as Heq.
  assert (Py.index (distances_to w q) m = Some (length faces)) as Hidx.
  { apply (index_from_first _ _ 0).
    apply (first_at_proper _ (distance e q)); [by symmetry|done]. }
  rewrite (matcher_run w q m (length faces) Hmin Hidx).
  rewrite (lt_proper m (distance e q) 0.45 Heq).
  apply lt_spec in Hnear. rewrite Hnear, Hmetas.
  rewrite lookup_app_r by lia. by rewrite Hlen, Nat.sub_diag.
Qed.

(** X16. Registration and check-in compose.  Register a valid form whose
    picture has first descriptor [e], in a gallery whose entries are all
    farther from [e] than [e] is from itself, and let that distance be below
    the threshold.  A check-in with the same picture, for a class of the
    registry, then appends one [Present] row carrying the name, student id,
    email and phone that were registered (after the header row if the
    worksheet is new). *)
Theorem registered_face_checks_in (f : register_form) (img : image) (e : embedding)
    (w : World) (cf : gmap string string) (cls folder timestamp : string) :
  valid_registration f img →
  head (face_encodings img) = Some e →
  paired w →
  (distance e e < 0.45)%Q →
  (∀ face, face ∈ known_faces w → (distance e e < distance face e)%Q) →
  class_folders w = Some cf →
  cf !! cls = Some folder →
  ∃ (w1 w2 : World) (file_id : string),
    tab1 f w = (w1, Ok tt) ∧
    tab2 (Some cls) (Some img) timestamp w1 = (w2, Ok tt) ∧
    sheets w2 !! cls =
      Some (match sheets w !! cls with
            | Some old => old
            | None => [HEADER_ROW]
            end ++
            [[timestamp; reg_name f; reg_id f; reg_email f; reg_phone f; cls;
              "Present"; "https://drive.google.com/file/d/" +:+ file_id +:+ "/view"]]).
Proof.
  intros Hv Hhead Hpaired Hnear Hfar Hcf Hcls.
  rewrite (tab1_valid f img w Hv). unfold tab2.
  destruct (face_encodings img) as [|e' rest] eqn:Henc; [done|].
  injection Hhead as ->. rewrite tab1_encodings_run.
  eexists. eexists. eexists. split; [reflexivity|].
  match goal with
  | |- tab2_encodings _ _ _ _ ?w1 = _ ∧ _ =>
      pose proof (matcher_last_entry w1 e e (known_faces w) (known_metadata w)
                    (new_metadata f) eq_refl eq_refl Hpaired Hnear Hfar) as Hm;
      rewrite (tab2_accepted w1 _ e rest (new_metadata f) (Some cls) img timestamp)
        by (try exact Hm; wsimpl; by destruct (known_faces w))
  end.
  rewrite (submit_run _ (new_metadata f) cf cls folder (reg_name f) (reg_id f));
    try done.
  cbv zeta. split; [reflexivity|]. wsimpl. rewrite lookup_insert_eq.
  unfold present_row. by destruct (sheets w !! cls).
Qed.

(** *** The reading blocks *)

Lemma dashboard_same_stores (selected : option string) (date : string) :
  respects same_stores (dashboard selected date).
Proof. unfold dashboard, get_class_data. cbv zeta. walk_with idtac. Qed.

Lemma download_same_stores (pressed : bool) (download_class : option string)
    (download_date : string) :
  respects same_stores (download_csv pressed download_class download_date).
Proof. unfold download_csv, get_class_data. cbv zeta. walk_with idtac. Qed.

(** X17. The dashboard and the download block only read: whatever the
    ledger holds and whether they return or raise, no store is changed. *)
Theorem reading_blocks_change_no_store (selected : option string) (date : string)
    (pressed : bool) (download_class : option string) (download_date : string)
    (w : World) :
  same_stores w (dashboard selected date w).1 ∧
  same_stores w (download_csv pressed download_class download_date w).1.
Proof. split; [apply dashboard_same_stores|apply download_same_stores]. Qed.

Lemma get_class_data_sheet (w : World) (cls : string) (sheet : list (list string)) :
  sheets w !! cls = Some sheet →
  get_class_data (Some cls) w = (w, Ok (get_all_records sheet)).
Proof. intros Hs. unfold get_class_data. mrun. by rewrite Hs. Qed.



(** X19. A worksheet with at least one record whose header row has labels
    (none repeated, as the reader requires) but no [Timestamp] label makes
    both the dashboard and the download raise [KeyError] for that label;
    nothing is shown. *)
Theorem ledger_without_timestamp_column_raises (w : World) (cls date : string)
    (header r : list string) (rs : list (list string)) :
  sheets w !! cls = Some (header :: r :: rs) →
  header ≠ [] →
  NoDup header →
  "Timestamp" ∉ header →
  dashboard (Some cls) date w = (w, Raise (KeyError (Some "Timestamp"))) ∧
  download_csv true (Some cls) date w = (w, Raise (KeyError (Some "Timestamp"))).
Proof.
  intros Hs Hne _ Hno.
  assert (list_find (λ c : string, c = "Timestamp") header = None) as Hfind.
  { apply list_find_None, Forall_forall. by intros c Hc ->. }
  unfold dashboard, download_csv. cbv zeta. cbv beta iota delta [mbind M_bind].
  rewrite (get_class_data_sheet w cls _ Hs). cbn [get_all_records].
  unfold df_empty, timestamp_startswith. cbn [columns rows].
  destruct header as [|h header']; [done|]. by rewrite Hfind.
Qed.

(** X20. The dashboard and the download read the same frame: whenever the
    dashboard has rows to group for a class and a date, a download for the
    same class and date offers exactly that frame. *)
Theorem dashboard_and_download_agree (w : World) (selected : option string)
    (date : string) (df : DataFrame) :
  (dashboard selected date w).2 = Ok (Some df) →
  download_csv true selected date w =
    (set_log (log w ++
              [EvUI (st_download_button
                       ("Download " +:+ Py.str_opt selected +:+ " attendance for " +:+ date)
                       df
                       (Py.str_opt selected +:+ "_attendance_" +:+ date +:+ ".csv"))]) w,
     Ok tt).
Proof.
  unfold dashboard, download_csv. cbv zeta. cbv beta iota delta [mbind M_bind].
  destruct (get_class_data selected w) as [w0 [df0|e]] eqn:Hget; [|done].
  assert (w0 = w) as ->.
  { revert Hget. unfold get_class_data. mrun.
    destruct selected as [cls|]; [destruct (sheets w !! cls)|]; by intros [= <- _]. }
  destruct (df_empty df0); [done|].
  destruct (timestamp_startswith df0 date) as [keep|]; [|done].
  cbv beta iota delta [or_raise M_ret mret].
  destruct (df_empty _); [done|].
  destruct (column_index _ "Student ID"); [|done].
  destruct (column_index _ "Name"); [|done].
  cbn [snd]. by intros [= <-].
Qed.

(** *** The admin code and the script as a whole *)

Lemma tab3_locked (a : admin_inputs) (w : World) :
  admin_code a ≠ "admin123" →
  tab3 a w =
    (if Py.not_ (admin_code a) then w
     else set_log (log w ++ [EvUI (st_warning "Enter valid admin code.")]) w,
     Ok tt).
Proof.
  intros Hcode. unfold tab3.
  destruct (String.eqb_spec (admin_code a) "admin123") as [|_]; [done|].
  by destruct (Py.not_ (admin_code a)).
Qed.

(** X21. Without the admin code the panel does nothing, whichever buttons
    are pressed: an empty code shows nothing, any other wrong code shows the
    warning, and no store is changed. *)
Theorem wrong_admin_code_blocks_panel (a : admin_inputs) (w : World) :
  admin_code a ≠ "admin123" →
  ∃ w' : World,
    tab3 a w = (w', Ok tt) ∧
    same_stores w w' ∧
    new_events w w' =
      (if Py.not_ (admin_code a) then []
       else [EvUI (st_warning "Enter valid admin code.")]).
Proof.
  intros Hcode. rewrite (tab3_locked a w Hcode). eexists. split; [reflexivity|].
  destruct (Py.not_ (admin_code a)).
  - split; [done|]. unfold new_events. by rewrite drop_all.
  - split; [apply same_stores_set_log|]. by apply new_events_app.
Qed.

Lemma tab3_locked_keeps_registry (a : admin_inputs) :
  admin_code a ≠ "admin123" → respects keeps_registry (tab3 a).
Proof.
  intros Hcode w. rewrite (tab3_locked a w Hcode).
  by destruct (Py.not_ (admin_code a)).
Qed.

Lemma load_class_folders_loaded (w : World) (cf : gmap string string) :
  class_folders w = Some cf → load_class_folders w = (w, Ok tt).
Proof. intros Hcf. unfold load_class_folders. mrun. by rewrite Hcf. Qed.

(** X22. The registry can only be changed behind the admin code: in a
    session that has loaded the registry, a run of the whole script with any
    other code leaves the registry and its file as they were, whatever is
    registered or checked in during the run and whether the run ends
    normally or in an exception. *)
Theorem registry_changes_need_admin_code (i : inputs) (w : World)
    (cf : gmap string string) :
  admin_code (in_admin i) ≠ "admin123" →
  class_folders w = Some cf →
  registry_of (script i w).1 = registry_of w.
Proof.
  intros Hcode Hcf. revert w Hcf.
  assert (respects keeps_registry
            (tab1 (in_form i) ;;
             tab2 (in_selected_class i) (in_face_img i) (in_timestamp i) ;;
             tab3 (in_admin i))) as Hrest.
  { apply respects_bind; [apply _|apply (neutral_keeps_registry (Tab1 _))|intros _].
    apply respects_bind; [apply _|apply (neutral_keeps_registry (Tab2 _ _ _))|intros _].
    by apply tab3_locked_keeps_registry. }
  intros w Hcf. unfold script.
  pose proof (neutral_keeps_registry LoadKnownFaces w) as Hload. cbn [exec] in Hload.
  change (keeps_registry w
    ((load_known_faces ≫= λ _, load_class_folders ≫= λ _,
        tab1 (in_form i) ;;
        tab2 (in_selected_class i) (in_face_img i) (in_timestamp i) ;;
        tab3 (in_admin i)) w).1).
  cbv beta iota delta [mbind M_bind] in *.
  destruct (load_known_faces w) as [w1 [[]|e]] eqn:Hl; cbn [fst] in *; [|done].
  assert (class_folders w1 = Some cf) as Hcf1.
  { unfold keeps_registry, registry_of in Hload. injection Hload as ->. done. }
  rewrite (load_class_folders_loaded w1 cf Hcf1).
  etrans; [|exact Hload]. apply Hrest.
Qed.

(** X23. A rerun in which nobody did anything is invisible: with the
    registry loaded and the gallery file holding the gallery (as every run
    leaves it), the script with no form submitted, no picture taken and no
    admin code entered returns normally in the very same world, trace
    included. *)
Theorem untouched_rerun_is_noop (i : inputs) (w : World) (cf : gmap string string) :
  gallery_synced w →
  class_folders w = Some cf →
  reg_submit (in_form i) = false →
  in_face_img i = None →
  admin_code (in_admin i) = "" →
  script i w = (w, Ok tt).
Proof.
  intros Hsync Hcf Hsub Himg Hcode.
  assert (load_known_faces w = (w, Ok tt)) as Hload.
  { unfold load_known_faces, gallery_synced in *. mrun.
    destruct w as [kf km pkl c cp d s l]. wsimpl.
    destruct pkl as [[fs ms]|]; wsimpl.
    - by injection Hsync as -> ->.
    - by destruct Hsync as [-> ->]. }
  unfold script. cbv beta iota delta [mbind M_bind]. rewrite Hload.
  rewrite (load_class_folders_loaded w cf Hcf).
  unfold tab1, tab2, tab3. rewrite Hsub, Himg, Hcode. done.
Qed.

(** *** A gallery whose lists do not pair up *)

(** X24. Why the pairing of the two gallery lists matters: with a gallery
    file that holds descriptors but no metadata, a picture within the
    threshold of a stored descriptor makes the check-in raise [IndexError];
    nothing is uploaded or recorded. *)
Theorem unpaired_gallery_raises (w : World) (q e : embedding) (rest : list embedding)
    (selected_class : option string) (img : image) (timestamp : string) :
  e ∈ known_faces w →
  known_metadata w = [] →
  (distance e q < 0.45)%Q →
  ∃ w' : World,
    tab2_encodings selected_class img timestamp (q :: rest) w = (w', Raise IndexError) ∧
    same_stores w w' ∧
    new_events w w' = [EvFaceDistance (length (known_faces w))].
Proof.
  intros He Hmeta Hnear.
  assert (known_faces w ≠ []) as Hne by (intros Hnil; rewrite Hnil in He; inversion He).
  destruct (min_spec _ (distances_nonempty w q Hne)) as (m & Hmin & Hin & Hle).
  destruct (index_from_found _ m 0 Hin) as (j & Hidx & _).
  assert (Py.lt m 0.45 = true) as Hlt.
  { apply lt_spec. eapply Qle_lt_trans; [|exact Hnear].
    apply Hle. unfold distances_to. apply list_elem_of_fmap. by exists e. }
  pose proof (matcher_run w q m (0 + j) Hmin Hidx) as Hrun.
  rewrite Hlt, Hmeta in Hrun. cbn [lookup] in Hrun. rewrite lookup_nil in Hrun.
  unfold tab2_encodings. cbv beta iota delta [mbind M_bind get].
  destruct (known_faces w) eqn:Hk; [done|]. rewrite <- Hk in *. rewrite Hrun.
  eexists. split; [reflexivity|]. split; [apply same_stores_set_log|by apply new_events_app].
Qed.

End Extras.

(** ** The further properties on explicit inputs *)

Lemma ledger_only_grows_witness :
  ∃ rs',
    sheets (@exec_all demo_externals
              [LoadKnownFaces; Tab1 (demo_form "Aina" "4");
               DownloadCsv true (Some demo_class) "2024-01-01"]
              one_record_world) !! demo_class = Some rs' ∧
    [HEADER_ROW;
     ["2024-01-01 10:00:00"; "Aina"; "CB21001"; "aina@example.org";
      "0123456789"; demo_class; "Present";
      "https://drive.google.com/file/d/G/view"]] `prefix_of` rs'.
Proof.
  apply (@ledger_only_grows demo_externals). by vm_compute.
Defined.

Lemma physics_not_blank : ¬ whitespace_only "Physics".
Proof. intros Hw. apply forallb_spec in Hw. vm_compute in Hw. discriminate Hw. Defined.

Lemma demo_class_not_blank : ¬ whitespace_only demo_class.
Proof. intros Hw. apply forallb_spec in Hw. vm_compute in Hw. discriminate Hw. Defined.

Lemma demo_registry_lookup :
  ({[ demo_class := "A" ]} : gmap string string) !! demo_class = Some "A".
Proof. apply lookup_singleton_eq. Defined.

Lemma demo_registry_lookup_physics :
  ({[ demo_class := "A" ]} : gmap string string) !! "Physics" = None.
Proof. by apply lookup_singleton_ne. Defined.

Lemma add_class_creates_folder_and_entry_witness :
  ¬ whitespace_only "Physics" ∧
  ∃ (w' : World) (f : drive_file),
    @add_class demo_externals true "Physics" loaded_world = (w', Ok tt) ∧
    drive w' = [demo_folder; f] ∧
    df_name f = "Physics" ∧
    class_folders w' = Some (<["Physics" := df_id f]> {[ demo_class := "A" ]}).
Proof.
  split; [exact physics_not_blank|].
  destruct (@add_class_creates_folder_and_entry demo_externals loaded_world "Physics"
              {[ demo_class := "A" ]} physics_not_blank eq_refl
              demo_registry_lookup_physics)
    as (w' & f & Hrun & Hd & (Hname & _) & Hcf & _).
  exists w', f. split; [exact Hrun|]. split; [exact Hd|]. split; [exact Hname|exact Hcf].
Defined.

Lemma add_class_existing_is_refused_witness :
  ∃ w' : World,
    @add_class demo_externals true demo_class loaded_world = (w', Ok tt) ∧
    new_events loaded_world w' = [EvUI (st_warning "Class already exists.")] ∧
    same_stores loaded_world w'.
Proof.
  exact (@add_class_existing_is_refused demo_externals loaded_world demo_class "A"
           {[ demo_class := "A" ]} demo_class_not_blank eq_refl demo_registry_lookup).
Defined.

Lemma remove_class_drops_entry_only_witness :
  ∃ w' : World,
    remove_class true (Some demo_class) loaded_world = (w', Ok tt) ∧
    class_folders w' = Some (delete demo_class {[ demo_class := "A" ]}) ∧
    drive w' = [demo_folder].
Proof.
  destruct (remove_class_drops_entry_only loaded_world demo_class "A"
              {[ demo_class := "A" ]} eq_refl demo_registry_lookup)
    as (w' & Hrun & Hcf & _ & _ & _ & Hd & _).
  exists w'. split; [exact Hrun|]. split; [exact Hcf|exact Hd].
Defined.

Lemma remove_then_add_makes_new_folder_witness :
  ∃ (w1 w2 : World) (f : drive_file),
    remove_class true (Some demo_class) loaded_world = (w1, Ok tt) ∧
    @add_class demo_externals true demo_class w1 = (w2, Ok tt) ∧
    drive w2 = [demo_folder; f] ∧
    df_id f = "B" ∧
    class_folders w2 = Some (<[demo_class := df_id f]> {[ demo_class := "A" ]}).
Proof.
  destruct (@remove_then_add_makes_new_folder demo_externals loaded_world demo_class "A"
              {[ demo_class := "A" ]} demo_class_not_blank eq_refl demo_registry_lookup)
    as (w1 & w2 & f & Hrem & Hadd & Hd & (_ & Hid & _) & Hcf & _).
  exists w1, w2, f. split; [exact Hrem|]. split; [exact Hadd|]. split; [exact Hd|].
  split; [exact Hid|exact Hcf].
Defined.

Lemma bootstrap_creates_missing_defaults_witness :
  ∃ (w' : World) (fs : list drive_file),
    @load_class_folders demo_externals empty_world = (w', Ok tt) ∧
    drive w' = fs ∧
    map df_name fs = missing_names DEFAULT_CLASS_LIST ∅ ∧
    class_folders w' = Some (with_folders ∅ fs).
Proof.
  destruct (@bootstrap_creates_missing_defaults demo_externals empty_world ∅
              eq_refl eq_refl)
    as (w' & fs & Hrun & Hd & Hnames & _ & Hcf & _).
  exists w', fs. split; [exact Hrun|]. split; [exact Hd|].
  split; [|exact Hcf]. rewrite Hnames. by rewrite dom_empty_L.
Defined.

Lemma removed_default_returns_next_session_witness :
  demo_class ∈ DEFAULT_CLASS_LIST ∧
  ∃ (w1 w2 : World) (f : drive_file) (cf2 : gmap string string),
    remove_class true (Some demo_class) loaded_world = (w1, Ok tt) ∧
    @load_class_folders demo_externals (set_class_folders None w1) = (w2, Ok tt) ∧
    df_name f = demo_class ∧
    class_folders w2 = Some cf2 ∧
    cf2 !! demo_class = Some (df_id f).
Proof.
  assert (demo_class ∈ DEFAULT_CLASS_LIST) as Hin by (by do 2 right; left).
  split; [exact Hin|].
  destruct (@removed_default_returns_next_session demo_externals loaded_world
              demo_class "A" {[ demo_class := "A" ]} eq_refl demo_registry_lookup Hin)
    as (w1 & w2 & f & cf2 & Hrem & _ & Hload & _ & (Hname & _) & Hcf & Hl).
  exists w1, w2, f, cf2. split; [exact Hrem|]. split; [exact Hload|].
  split; [exact Hname|]. split; [exact Hcf|exact Hl].
Defined.

Lemma loaded_world_synced : registry_synced loaded_world.
Proof. intros cf Hcf. exact Hcf. Defined.

Lemma registry_file_follows_session_witness :
  registry_synced loaded_world ∧
  class_folders_pkl (@exec_all demo_externals
                       [LoadKnownFaces; LoadClassFolders;
                        DownloadCsv true (Some demo_class) "2024-01-01"]
                       loaded_world)
    = Some {[ demo_class := "A" ]}.
Proof.
  split; [exact loaded_world_synced|].
  exact (@registry_file_follows_session demo_externals
           [LoadKnownFaces; LoadClassFolders;
            DownloadCsv true (Some demo_class) "2024-01-01"]
           loaded_world {[ demo_class := "A" ]} loaded_world_synced eq_refl).
Defined.

Lemma loaded_world_backed : registry_backed_world loaded_world.
Proof.
  split; intros cf [= <-] name id [<- <-]%lookup_singleton_Some;
    exists demo_folder; (split; [by constructor|by repeat split]).
Defined.

Lemma registry_handles_stay_backed_witness :
  registry_backed_world loaded_world ∧
  ∃ f,
    f ∈ drive (@exec_all demo_externals
                 [LoadKnownFaces; LoadClassFolders;
                  DownloadCsv true (Some demo_class) "2024-01-01"]
                 loaded_world) ∧
    is_class_folder f demo_class "A".
Proof.
  split; [exact loaded_world_backed|].
  exact (@registry_handles_stay_backed demo_externals
           [LoadKnownFaces; LoadClassFolders;
            DownloadCsv true (Some demo_class) "2024-01-01"]
           loaded_world {[ demo_class := "A" ]} demo_class "A"
           loaded_world_backed eq_refl demo_registry_lookup).
Defined.

Lemma invalid_registration_changes_nothing_witness :
  ∃ w' : World,
    @tab1 demo_externals (demo_form "" "4") loaded_world = (w', Ok tt) ∧
    same_stores loaded_world w'.
Proof.
  destruct (@invalid_registration_changes_nothing demo_externals (demo_form "" "4")
              loaded_world)
    as (w' & Hrun & Hsame & _).
  - intros img (_ & Hname & _). by apply Hname.
  - exists w'. split; [exact Hrun|exact Hsame].
Defined.

Lemma registering_twice_duplicates_witness :
  ∃ (e : embedding) (w1 w2 : World),
    @tab1 demo_externals (demo_form "Aina" "4") loaded_world = (w1, Ok tt) ∧
    @tab1 demo_externals (demo_form "Aina" "4") w1 = (w2, Ok tt) ∧
    known_faces w2 = [e; e].
Proof.
  destruct (@registering_twice_duplicates demo_externals (demo_form "Aina" "4") "4"
              loaded_world demo_registration_valid)
    as (e & w1 & w2 & Hrun1 & Hrun2 & Hfaces & _).
  exists e, w1, w2. split; [exact Hrun1|]. split; [exact Hrun2|exact Hfaces].
Defined.

Lemma registered_world_matcher :
  @matcher demo_externals [97 # 100] registered_world =
    (set_log [EvFaceDistance 1] registered_world,
     Ok (Some (new_metadata (demo_form "Bala" "a")))).
Proof.
  apply (@matcher_last_entry demo_externals registered_world [97 # 100] [97 # 100] [] []);
    try reflexivity.
  intros face Hin. inversion Hin.
Defined.

Lemma registered_world_known : known_faces registered_world ≠ [].
Proof. discriminate. Defined.

Lemma accepted_face_without_class_raises_witness :
  @tab2_encodings demo_externals (Some "Physics") "a" "2024-01-01 10:00:00"
    [[97 # 100]] registered_world
    = (set_log [EvFaceDistance 1] registered_world, Raise (KeyError (Some "Physics"))).
Proof.
  apply (@accepted_face_without_class_raises demo_externals registered_world _
           [97 # 100] [] (new_metadata (demo_form "Bala" "a")) {[ demo_class := "A" ]}
           (Some "Physics") "Bala" "CB21001" "a" "2024-01-01 10:00:00"
           registered_world_known registered_world_matcher).
  - by vm_compute.
  - by vm_compute.
  - reflexivity.
  - exact demo_registry_lookup_physics.
Defined.

Lemma checkin_photo_goes_to_class_folder_witness :
  ∃ (w' : World) (upload : drive_file),
    @tab2_encodings demo_externals (Some demo_class) "a" "2024-01-01 10:00:00"
      [[97 # 100]] registered_world = (w', Ok tt) ∧
    drive w' = [demo_folder; upload] ∧
    df_parents upload = ["A"] ∧
    df_media upload = Some "a".
Proof.
  destruct (@checkin_photo_goes_to_class_folder demo_externals registered_world _
              [97 # 100] [] (new_metadata (demo_form "Bala" "a")) {[ demo_class := "A" ]}
              demo_class "A" "Bala" "CB21001" "a" "2024-01-01 10:00:00"
              registered_world_known registered_world_matcher
              ltac:(by vm_compute) ltac:(by vm_compute) eq_refl demo_registry_lookup)
    as (w' & upload & Hrun & Hd & Hp & Hm & _).
  exists w', upload. split; [exact Hrun|]. split; [exact Hd|]. split; [exact Hp|exact Hm].
Defined.

Lemma registered_face_checks_in_witness :
  ∃ (w1 w2 : World) (file_id : string),
    @tab1 demo_externals (demo_form "Aina" "4") registered_world = (w1, Ok tt) ∧
    @tab2 demo_externals (Some demo_class) (Some "4") "2024-01-01 10:00:00" w1
      = (w2, Ok tt) ∧
    sheets w2 !! demo_class =
      Some ([HEADER_ROW] ++
            [["2024-01-01 10:00:00"; "Aina"; "CB21001"; "aina@example.org";
              "0123456789"; demo_class; "Present";
              "https://drive.google.com/file/d/" +:+ file_id +:+ "/view"]]).
Proof.
  destruct (@registered_face_checks_in demo_externals (demo_form "Aina" "4") "4"
              [52 # 100] registered_world {[ demo_class := "A" ]} demo_class "A"
              "2024-01-01 10:00:00" demo_registration_valid eq_refl eq_refl)
    as (w1 & w2 & file_id & Hrun1 & Hrun2 & Hsheet).
  - reflexivity.
  - intros face Hin. apply list_elem_of_singleton in Hin as ->. reflexivity.
  - reflexivity.
  - exact demo_registry_lookup.
  - exists w1, w2, file_id. split; [exact Hrun1|]. split; [exact Hrun2|exact Hsheet].
Defined.


Lemma ledger_without_timestamp_column_raises_witness :
  download_csv true (Some demo_class) "2024-01-01" foreign_sheet_world
    = (foreign_sheet_world, Raise (KeyError (Some "Timestamp"))).
Proof.
  refine (proj2 (ledger_without_timestamp_column_raises foreign_sheet_world demo_class
                   "2024-01-01" ["Name"; "Student ID"] ["Aina"; "CB21001"] []
                   ltac:(by vm_compute) ltac:(discriminate) _ _)).
  - apply NoDup_cons. split; [|apply NoDup_singleton].
    intros Hin. apply list_elem_of_singleton in Hin. discriminate Hin.
  - intros Hin. apply elem_of_cons in Hin as [Hin|Hin]; [discriminate Hin|].
    apply list_elem_of_singleton in Hin. discriminate Hin.
Defined.

Lemma dashboard_and_download_agree_witness :
  ∃ df : DataFrame,
    (dashboard (Some demo_class) "2024-01-01" one_record_world).2 = Ok (Some df) ∧
    new_events one_record_world
      (download_csv true (Some demo_class) "2024-01-01" one_record_world).1
      = [EvUI (st_download_button
                 ("Download " +:+ demo_class +:+ " attendance for 2024-01-01") df
                 (demo_class +:+ "_attendance_2024-01-01.csv"))].
Proof.
  eexists. split; [by vm_compute|].
  rewrite (dashboard_and_download_agree one_record_world (Some demo_class) "2024-01-01" _
             ltac:(by vm_compute)).
  reflexivity.
Defined.

Lemma wrong_admin_code_blocks_panel_witness :
  ∃ w' : World,
    @tab3 demo_externals guessing_admin loaded_world = (w', Ok tt) ∧
    same_stores loaded_world w' ∧
    new_events loaded_world w' = [EvUI (st_warning "Enter valid admin code.")].
Proof.
  exact (@wrong_admin_code_blocks_panel demo_externals guessing_admin loaded_world
           ltac:(discriminate)).
Defined.

Lemma registry_changes_need_admin_code_witness :
  registry_of (@script demo_externals busy_inputs loaded_world).1
    = registry_of loaded_world.
Proof.
  exact (@registry_changes_need_admin_code demo_externals busy_inputs loaded_world
           {[ demo_class := "A" ]} ltac:(discriminate) eq_refl).
Defined.

Lemma untouched_rerun_is_noop_witness :
  @script demo_externals idle_inputs loaded_world = (loaded_world, Ok tt).
Proof.
  apply (@untouched_rerun_is_noop demo_externals idle_inputs loaded_world
           {[ demo_class := "A" ]}); try reflexivity.
  split; reflexivity.
Defined.

Lemma unpaired_gallery_raises_witness :
  ∃ w' : World,
    @tab2_encodings demo_externals (Some demo_class) "4" "2024-01-01 10:00:00"
      [[52 # 100]] unpaired_world = (w', Raise IndexError) ∧
    same_stores unpaired_world w'.
Proof.
  destruct (@unpaired_gallery_raises demo_externals unpaired_world [52 # 100] [52 # 100]
              [] (Some demo_class) "4" "2024-01-01 10:00:00")
    as (w' & Hrun & Hsame & _).
  - by constructor.
  - reflexivity.
  - reflexivity.
  - exists w'. split; [exact Hrun|exact Hsame].
Defined.
